(** * The plunger of a virtual pinball table: [lib/vpt/plunger/plunger.ts]

    A shallow embedding of the [Plunger] class and of the objects it is
    written against, followed by the properties of the specification that
    concern it.

    Conventions.
    - A JavaScript [number] is an exact rational ([Q]); rounding, infinities
      and NaN are outside the model.
    - [undefined] is [None]; a property that may be undefined has an
      [option] type.
    - Objects live in a heap and are named by locations.  Every class has
      its own table, so a reference never changes class.
    - A method is a function from heaps to an outcome and a heap. *)

From Stdlib Require Import QArith Qabs Lqa.
From stdpp Require Import gmap strings list fin_maps.

Local Open Scope Q_scope.

Abbreviation number := Q (only parsing).
Abbreviation loc := positive (only parsing).

(** ** Numeric helpers *)

(** [a < b] on numbers, as a boolean. *)
Definition ltb (a b : number) : bool := negb (Qle_bool b a).

(** [Math.abs]. *)
Definition abs (a : number) : number := Qabs a.

(** ** Data classes *)

(** [PlungerData]: the fields and the one method [plunger.ts] uses. *)
Module PlungerData.
Record t : Type := mk {
  name : string;
  szMaterial : string;
  szImage : string;
  szSurface : string;
  isVisible : bool;
  speedPull : number;
  autoPlunger : bool
}.

Definition getName (d : t) : string := name d.
End PlungerData.

(** [export interface PlungerConfig]. *)
Module PlungerConfig.
Record t : Type := mk {
  x : number;
  y : number;
  x2 : number;
  zHeight : number;
  frameTop : number;
  frameBottom : number;
  cFrames : number
}.
End PlungerConfig.

(** [export enum PlungerType]. *)
Module PlungerType.
Inductive t : Type := Modern | Flat | Custom.

Definition value (p : t) : number :=
  match p with
  | Modern => 1
  | Flat => 2
  | Custom => 3
  end.
End PlungerType.

(** [Vertex3D]. *)
Module Vertex3D.
Record t : Type := mk { x : number; y : number; z : number }.
End Vertex3D.

(** Modelled from the spec: [PlungerState], the Dynamic State, of which
    [plunger.ts] only shows the call [PlungerState.claim(name, 0)] and the
    read of [frame].  The spec: "Created once at entity construction with
    frame = 0". *)
Module PlungerState.
Record t : Type := mk { name : string; frame : number }.

Definition setFrame (f : number) (s : t) : t :=
  {| name := name s; frame := f |}.
End PlungerState.

(** ** The Mover *)

(** Modelled from the spec: [PlungerMover], whose source is not part of
    [plunger.ts]; section 4.1 of the specification describes it.  The fields
    [x], [x2] and [pos] are the ones [plunger.ts] reads.  The spring and
    friction coefficients, the release speed and the settling tolerances are
    the tunable parameters the specification leaves open. *)
Module PlungerMover.

(** "treat as tunable parameters, not hard-coded constants". *)
Record Tuning : Type := mkTuning {
  restPos : number;
  springStrength : number;
  friction : number;
  speedFire : number;
  posTolerance : number;
  speedTolerance : number
}.

(** "State machine: Idle, Retracting, Fired". *)
Inductive Mode : Type := Idle | Retracting | Fired.

Record t : Type := mk {
  (* rod tip, lateral extent *)
  x : number;
  x2 : number;
  (* rod position along the travel axis, and its velocity *)
  pos : number;
  speed : number;
  mode : Mode;
  (* rate of the retraction in progress *)
  pullSpeed : number;
  (* fraction of the full release force of the release in progress *)
  fireStrength : number;
  (* the Configuration, immutable *)
  config : PlungerConfig.t;
  data : PlungerData.t;
  tuning : Tuning
}.

(** The mover of a new session: the rod idle at its rest position. *)
Definition create (config : PlungerConfig.t) (data : PlungerData.t)
    (tuning : Tuning) : t :=
  {| x := PlungerConfig.x config; x2 := PlungerConfig.x2 config;
     pos := restPos tuning; speed := 0; mode := Idle;
     pullSpeed := 0; fireStrength := 0;
     config := config; data := data; tuning := tuning |}.

Definition frameTop (m : t) : number := PlungerConfig.frameTop (config m).
Definition frameBottom (m : t) : number := PlungerConfig.frameBottom (config m).

(** "behavior mode (spring-pull vs. auto-launch)". *)
Definition autoLaunch (m : t) : bool := PlungerData.autoPlunger (data m).

(** "LimitBOS (beginning-of-stroke, rod fully retracted)" is raised at the
    bottom-of-stroke bound: the fully retracted bound is [frameBottom],
    the fully forward one is [frameTop]. *)
Definition retractedBound (m : t) : number := frameBottom m.
Definition forwardBound (m : t) : number := frameTop m.

Definition setMotion (p v : number) (md : Mode) (m : t) : t :=
  {| x := x m; x2 := x2 m; pos := p; speed := v; mode := md;
     pullSpeed := pullSpeed m; fireStrength := fireStrength m;
     config := config m; data := data m; tuning := tuning m |}.

Definition setPullSpeed (v : number) (m : t) : t :=
  {| x := x m; x2 := x2 m; pos := pos m; speed := speed m; mode := mode m;
     pullSpeed := v; fireStrength := fireStrength m;
     config := config m; data := data m; tuning := tuning m |}.

Definition setFireStrength (s : number) (m : t) : t :=
  {| x := x m; x2 := x2 m; pos := pos m; speed := speed m; mode := mode m;
     pullSpeed := pullSpeed m; fireStrength := s;
     config := config m; data := data m; tuning := tuning m |}.

(** "pullBack(speed): begins retracting the rod toward the maximum-pull
    position at the given rate [...].  No effect if already fully
    retracted." *)
Definition pullBack (v : number) (m : t) : t :=
  if Qeq_bool (pos m) (retractedBound m) then m
  else setMotion (pos m) 0 Retracting (setPullSpeed v m).

(** "fire(strength?): transitions the rod from its current (or, for
    auto-launch mode, from the maximum-retracted) position into a forward
    release.  strength in [0,1] scales initial forward velocity when
    provided"; when it is omitted the force is the full one ("constant
    force").  Where the release starts is decided by the mode alone, as
    this sentence has it and as [plunger.ts] says where it calls [fire]:
    with [1.0] on an auto plunger for "a release from the maximum retracted
    position", and with nothing on a regular plunger for "a release from
    the current position".  The later "when omitted, release always starts
    from full-travel" of the same paragraph, which says otherwise for a
    regular plunger, is not followed.  Forward is from [frameBottom]
    towards [frameTop], the direction of decreasing [pos]. *)
Definition fire (strength : option number) (m : t) : t :=
  let start := if autoLaunch m then retractedBound m else pos m in
  let s := match strength with Some s => s | None => 1.0 end in
  setMotion start (- (s * speedFire (tuning m))) Fired (setFireStrength s m).

(** "clamp pos to travel bounds every step (hard stop, zero residual
    velocity component beyond the bound: inelastic wall)". *)
Definition clamp (m : t) : t :=
  if ltb (pos m) (frameTop m) then
    setMotion (frameTop m) (if ltb (speed m) 0 then 0 else speed m) (mode m) m
  else if ltb (frameBottom m) (pos m) then
    setMotion (frameBottom m) (if ltb 0 (speed m) then 0 else speed m) (mode m) m
  else m.

(** "While retracting, position moves linearly toward the pull target at
    the pull rate." *)
Definition retract (dt : number) (m : t) : t :=
  let target := retractedBound m in
  let d := abs (pullSpeed m) * dt in
  if ltb (pos m) target then
    let p := pos m + d in
    if ltb p target then setMotion p (abs (pullSpeed m)) Retracting m
    else setMotion target 0 Retracting m
  else if ltb target (pos m) then
    let p := pos m - d in
    if ltb target p then setMotion p (- abs (pullSpeed m)) Retracting m
    else setMotion target 0 Retracting m
  else setMotion (pos m) 0 Retracting m.

(** "While firing, position integrates under spring force (proportional
    to displacement from rest) minus friction"; "spring force =
    -k (pos - restPos)". *)
Definition integrate (dt : number) (m : t) : t :=
  let k := tuning m in
  let force :=
    - (springStrength k * (pos m - restPos k)) - friction k * speed m in
  let v := speed m + force * dt in
  setMotion (pos m + v * dt) v Fired m.

(** "both return to Idle when velocity and displacement settle below
    tolerance". *)
Definition settle (m : t) : t :=
  let k := tuning m in
  match mode m with
  | Idle => m
  | _ =>
    if Qle_bool (abs (speed m)) (speedTolerance k)
       && Qle_bool (abs (pos m - restPos k)) (posTolerance k)
    then setMotion (pos m) 0 Idle m
    else m
  end.

(** "step(dt): advances the mechanical model by one fixed simulation
    tick." *)
Definition step (dt : number) (m : t) : t :=
  let moved :=
    match mode m with
    | Idle => m
    | Retracting => retract dt m
    | Fired => integrate dt m
    end in
  settle (clamp moved).

(** The commands a mover receives between and at ticks. *)
Inductive Command : Type :=
| PullBack (v : number)
| Fire (strength : option number)
| Step (dt : number).

Definition exec (c : Command) (m : t) : t :=
  match c with
  | PullBack v => pullBack v m
  | Fire s => fire s m
  | Step dt => step dt m
  end.

(** Commands are run in the order of the list. *)
Definition run (cs : list Command) (m : t) : t :=
  fold_left (fun acc c => exec c acc) cs m.

Definition inBounds (m : t) : Prop :=
  frameTop m <= pos m /\ pos m <= frameBottom m.

End PlungerMover.

(** ** The collaborators of the plunger *)

(** The result of [PlungerMeshGenerator.generateMeshes]: up to three parts. *)
Record PlungerMesh (Mesh : Type) : Type := mkPlungerMesh {
  rod : option Mesh;
  spring : option Mesh;
  flat : option Mesh
}.
Arguments mkPlungerMesh {Mesh} _ _ _.
Arguments rod {Mesh} _.
Arguments spring {Mesh} _.
Arguments flat {Mesh} _.

(** The classes [plunger.ts] imports and only calls: the table, the player
    and the mesh generator; and what the collision surface computes for its
    mover from the data, the frame count, the physics and the table.  They
    are parameters of the development. *)
Class Engine : Type := {
  Mesh : Type;
  Material : Type;
  Texture : Type;
  Table : Type;
  getMaterial : Table -> string -> option Material;
  getTexture : Table -> string -> option Texture;
  getSurfaceHeight : Table -> string -> number -> number -> number;
  Player : Type;
  PlayerPhysics : Type;
  Ball : Type;
  getPhysics : Player -> PlayerPhysics;
  PlungerMeshGenerator : Type;
  new_PlungerMeshGenerator : PlungerData.t -> PlungerMeshGenerator;
  cFrames : PlungerMeshGenerator -> number;
  generateMeshes : PlungerMeshGenerator -> number -> Table -> PlungerMesh Mesh;
  plungerConfig : PlungerData.t -> number -> Table -> PlungerConfig.t;
  plungerTuning : PlungerData.t -> PlayerPhysics -> Table -> PlungerMover.Tuning
}.

(** [IRenderApi]: the two operations [applyState] calls.  [SCENE] is the
    state of the scene graph the nodes belong to. *)
Class IRenderApi `{Engine} (NODE SCENE : Type) : Type := {
  findInGroup : NODE -> string -> SCENE -> option NODE;
  applyMeshToNode : option Mesh -> NODE -> SCENE -> SCENE
}.

(** What [applyState] may rely on from a render API: a node shows the mesh
    last applied to it, applying a mesh to a node leaves the other nodes
    alone, and it does not rename the children of a group. *)
Class RenderApiLaws `{Engine} (NODE SCENE : Type) `{!IRenderApi NODE SCENE} : Type := {
  nodeMesh : SCENE -> NODE -> option (option Mesh);
  nodeMesh_apply_same m n s :
    nodeMesh (applyMeshToNode m n s) n = Some m;
  nodeMesh_apply_other m n n' s :
    n' <> n -> nodeMesh (applyMeshToNode m n s) n' = nodeMesh s n';
  findInGroup_apply m n g0 k0 g k s :
    findInGroup g0 k0 s = Some n ->
    findInGroup g k (applyMeshToNode m n s) = findInGroup g k s
}.

(** An entry of [Meshes]: [{ mesh, material, map }]. *)
Record RenderInfo `{Engine} : Type := mkRenderInfo {
  mesh : Mesh;
  material : option Material;
  map : option Texture
}.
Arguments mkRenderInfo {_} _ _ _.

(** ** Objects *)

Section Objects.
Context `{Engine}.

(** [class Plunger]: its fields.  [api], [hit] and [events] are the
    optional ones. *)
Record Plunger : Type := mkPlunger {
  data : PlungerData.t;
  meshGenerator : PlungerMeshGenerator;
  state : loc;
  api : option loc;
  hit : option loc;
  events : option loc
}.

(** [new EventProxy(this)]. *)
Record EventProxy : Type := mkEventProxy {
  proxyItem : loc
}.

(** [new PlungerHit(data, state, events, cFrames, physics, table)], and
    the mover [getMoverObject()] returns. *)
Record PlungerHit : Type := mkPlungerHit {
  hitData : PlungerData.t;
  hitState : loc;
  hitEvents : loc;
  hitFrames : number;
  hitPhysics : PlayerPhysics;
  hitTable : Table;
  moverObject : loc
}.

(** [new PlungerApi(data, hit, events, this, player, table)]. *)
Record PlungerApi : Type := mkPlungerApi {
  apiData : PlungerData.t;
  apiHit : loc;
  apiEvents : loc;
  apiItem : loc;
  apiPlayer : Player;
  apiTable : Table
}.

(** The heap: one table per class. *)
Record Heap : Type := mkHeap {
  plungers : gmap loc Plunger;
  states : gmap loc PlungerState.t;
  proxies : gmap loc EventProxy;
  hits : gmap loc PlungerHit;
  movers : gmap loc PlungerMover.t;
  apis : gmap loc PlungerApi
}.

Definition emptyHeap : Heap := mkHeap ∅ ∅ ∅ ∅ ∅ ∅.

Definition setPlungers (t : gmap loc Plunger) (h : Heap) : Heap :=
  mkHeap t (states h) (proxies h) (hits h) (movers h) (apis h).
Definition setStates (t : gmap loc PlungerState.t) (h : Heap) : Heap :=
  mkHeap (plungers h) t (proxies h) (hits h) (movers h) (apis h).
Definition setProxies (t : gmap loc EventProxy) (h : Heap) : Heap :=
  mkHeap (plungers h) (states h) t (hits h) (movers h) (apis h).
Definition setHits (t : gmap loc PlungerHit) (h : Heap) : Heap :=
  mkHeap (plungers h) (states h) (proxies h) t (movers h) (apis h).
Definition setMovers (t : gmap loc PlungerMover.t) (h : Heap) : Heap :=
  mkHeap (plungers h) (states h) (proxies h) (hits h) t (apis h).
Definition setApis (t : gmap loc PlungerApi) (h : Heap) : Heap :=
  mkHeap (plungers h) (states h) (proxies h) (hits h) (movers h) t.

(** ** Methods as heap transformers *)

(** How a call ends: with a value, with the [TypeError] JavaScript raises
    on a property access through [undefined], or on a reference that
    names no object of the heap (which no JavaScript program can hold). *)
Inductive outcome (A : Type) : Type :=
| Return (a : A)
| ThrowTypeError
| BadRef.
#[local] Arguments Return {A} a.
#[local] Arguments ThrowTypeError {A}.
#[local] Arguments BadRef {A}.

Definition M (A : Type) : Type := Heap -> outcome A * Heap.

Definition ret {A} (a : A) : M A := fun h => (Return a, h).

Definition bind {A B} (m : M A) (k : A -> M B) : M B :=
  fun h =>
    match m h with
    | (Return a, h') => k a h'
    | (ThrowTypeError, h') => (ThrowTypeError, h')
    | (BadRef, h') => (BadRef, h')
    end.

Definition throwTypeError {A} : M A := fun h => (ThrowTypeError, h).

(** Reading an object through a reference. *)
Definition deref {A} (table : Heap -> gmap loc A) (l : loc) : M A :=
  fun h =>
    match table h !! l with
    | Some o => (Return o, h)
    | None => (BadRef, h)
    end.

(** Heap updates. *)
Definition modify (f : Heap -> Heap) : M unit := fun h => (Return tt, f h).

(** Allocation in a table: a location the table does not use yet. *)
Definition alloc {A} (table : Heap -> gmap loc A)
    (setTable : gmap loc A -> Heap -> Heap) (o : A) : M loc :=
  fun h =>
    let l := fresh (dom (table h)) in
    (Return l, setTable (<[l := o]> (table h)) h).

End Objects.

Arguments Return {A} a.
Arguments ThrowTypeError {A}.
Arguments BadRef {A}.

Notation "'let*' x := m 'in' k" := (bind m (fun x => k))
  (at level 10, x name, m at level 100, k at level 200,
   format "'[v' 'let*'  x  :=  m  'in' '/' k ']'").
Notation "'do' m 'then' k" := (bind m (fun _ => k))
  (at level 10, m at level 100, k at level 200,
   format "'[v' 'do'  m  'then' '/' k ']'").

(** ** The classes around the plunger, as far as [plunger.ts] uses them *)

Section Collaborators.
Context `{Engine}.

(** Modelled from the spec: [PlungerState.claim(name, frame)], whose
    source is not part of [plunger.ts]: a Dynamic State object with the
    given frame ("Created once at entity construction with frame = 0"). *)
Definition PlungerState_claim (name : string) (frame : number) : M loc :=
  alloc states setStates {| PlungerState.name := name; PlungerState.frame := frame |}.

(** [new EventProxy(item)]. *)
Definition new_EventProxy (item : loc) : M loc :=
  alloc proxies setProxies {| proxyItem := item |}.

(** Modelled from the spec: [new PlungerHit(...)], whose source is not part
    of [plunger.ts]: the Collision Surface, which owns the Mover of the
    session ("producing the Mover/Collision Surface/Facade as
    session-scoped objects"). *)
Definition new_PlungerHit (data : PlungerData.t) (state events : loc)
    (frames : number) (physics : PlayerPhysics) (table : Table) : M loc :=
  let mover :=
    PlungerMover.create (plungerConfig data frames table) data
      (plungerTuning data physics table) in
  let* m := alloc movers setMovers mover in
  alloc hits setHits
    {| hitData := data; hitState := state; hitEvents := events;
       hitFrames := frames; hitPhysics := physics; hitTable := table;
       moverObject := m |}.

(** [PlungerHit.getMoverObject()]. *)
Definition PlungerHit_getMoverObject (hit : loc) : M loc :=
  let* h := deref hits hit in
  ret (moverObject h).

(** [new PlungerApi(data, hit, events, item, player, table)]. *)
Definition new_PlungerApi (data : PlungerData.t) (hit events item : loc)
    (player : Player) (table : Table) : M loc :=
  alloc apis setApis
    {| apiData := data; apiHit := hit; apiEvents := events; apiItem := item;
       apiPlayer := player; apiTable := table |}.

(** The mover's methods and fields, through a reference to it. *)
Definition updateMover (mover : loc) (f : PlungerMover.t -> PlungerMover.t) : M unit :=
  let* m := deref movers mover in
  modify (fun h => setMovers (<[mover := f m]> (movers h)) h).

Definition PlungerMover_pullBack (mover : loc) (speed : number) : M unit :=
  updateMover mover (PlungerMover.pullBack speed).

Definition PlungerMover_fire (mover : loc) (strength : option number) : M unit :=
  updateMover mover (PlungerMover.fire strength).

Definition PlungerMover_step (mover : loc) (dt : number) : M unit :=
  updateMover mover (PlungerMover.step dt).

Definition PlungerMover_x (mover : loc) : M number :=
  let* m := deref movers mover in ret (PlungerMover.x m).

Definition PlungerMover_x2 (mover : loc) : M number :=
  let* m := deref movers mover in ret (PlungerMover.x2 m).

Definition PlungerMover_pos (mover : loc) : M number :=
  let* m := deref movers mover in ret (PlungerMover.pos m).

End Collaborators.

(** ** [class Plunger] *)

Section PlungerClass.
Context `{Engine}.

(** [public static PLUNGER_HEIGHT = 50.0]. *)
Definition PLUNGER_HEIGHT : number := 50.0.

(** Reads and writes of the fields of [this]. *)
Definition this_ (this : loc) : M Plunger := deref plungers this.

Definition assign (this : loc) (f : Plunger -> Plunger) : M unit :=
  let* p := this_ this in
  modify (fun h => setPlungers (<[this := f p]> (plungers h)) h).

Definition setEvents (e : option loc) (p : Plunger) : Plunger :=
  mkPlunger (data p) (meshGenerator p) (state p) (api p) (hit p) e.
Definition setHit (x : option loc) (p : Plunger) : Plunger :=
  mkPlunger (data p) (meshGenerator p) (state p) (api p) x (events p).
Definition setApi (a : option loc) (p : Plunger) : Plunger :=
  mkPlunger (data p) (meshGenerator p) (state p) a (hit p) (events p).

(** [constructor(itemName, data)]. *)
Definition new_Plunger (itemName : string) (data : PlungerData.t) : M loc :=
  let meshGenerator := new_PlungerMeshGenerator data in
  let* state := PlungerState_claim (PlungerData.getName data) 0 in
  alloc plungers setPlungers (mkPlunger data meshGenerator state None None None).

Definition getName (this : loc) : M string :=
  let* p := this_ this in
  ret (PlungerData.getName (data p)).

Definition getData (this : loc) : M PlungerData.t :=
  let* p := this_ this in
  ret (data p).

Definition getState (this : loc) : M loc :=
  let* p := this_ this in
  ret (state p).

Definition getMeshes (this : loc) (table : Table) : M (gmap string RenderInfo) :=
  let* p := this_ this in
  let plunger := generateMeshes (meshGenerator p) 0 table in
  let meshes : gmap string RenderInfo := ∅ in
  let material := getMaterial table (PlungerData.szMaterial (data p)) in
  let map := getTexture table (PlungerData.szImage (data p)) in
  let meshes :=
    match rod plunger with
    | Some m => <["rod" := mkRenderInfo m material map]> meshes
    | None => meshes
    end in
  let meshes :=
    match spring plunger with
    | Some m => <["spring" := mkRenderInfo m material map]> meshes
    | None => meshes
    end in
  let meshes :=
    match flat plunger with
    | Some m => <["flat" := mkRenderInfo m material map]> meshes
    | None => meshes
    end in
  ret meshes.

Definition isVisible (this : loc) (table : Table) : M bool :=
  let* p := this_ this in
  ret (PlungerData.isVisible (data p)).

Definition isCollidable (this : loc) : M bool :=
  ret true.

Definition setupPlayer (this : loc) (player : Player) (table : Table) : M unit :=
  let* e := new_EventProxy this in
  do assign this (setEvents (Some e)) then
  let* p := this_ this in
  let* h := new_PlungerHit (data p) (state p) e (cFrames (meshGenerator p))
              (getPhysics player) table in
  do assign this (setHit (Some h)) then
  let* p := this_ this in
  let* a := new_PlungerApi (data p) h e this player table in
  assign this (setApi (Some a)).

(** [return this.api!]: the [!] is erased by the compiler. *)
Definition getApi (this : loc) : M (option loc) :=
  let* p := this_ this in
  ret (api p).

(** [return this.hit!.getMoverObject()]. *)
Definition getMover (this : loc) : M loc :=
  let* p := this_ this in
  match hit p with
  | Some h => PlungerHit_getMoverObject h
  | None => throwTypeError
  end.

(** [return [ this.hit! ]]. *)
Definition getHitShapes (this : loc) : M (list (option loc)) :=
  let* p := this_ this in
  ret [ hit p ].

(** [return this.events!]. *)
Definition getEventProxy (this : loc) : M (option loc) :=
  let* p := this_ this in
  ret (events p).

Definition pullBack (this : loc) : M unit :=
  let* mover := getMover this in
  let* p := this_ this in
  PlungerMover_pullBack mover (PlungerData.speedPull (data p)).

Definition fire (this : loc) : M unit :=
  let* p := this_ this in
  if PlungerData.autoPlunger (data p) then
    let* mover := getMover this in
    PlungerMover_fire mover (Some 1.0)
  else
    let* mover := getMover this in
    PlungerMover_fire mover None.

Definition applyState {NODE SCENE} `{!IRenderApi NODE SCENE}
    (this : loc) (obj : NODE) (table : Table) (player : Player)
    (scene : SCENE) : M SCENE :=
  let* p := this_ this in
  let* st := deref states (state p) in
  let mesh := generateMeshes (meshGenerator p) (PlungerState.frame st) table in
  let scene :=
    match findInGroup obj "rod" scene with
    | Some rodObj => applyMeshToNode (rod mesh) rodObj scene
    | None => scene
    end in
  let scene :=
    match findInGroup obj "spring" scene with
    | Some springObj => applyMeshToNode (spring mesh) springObj scene
    | None => scene
    end in
  ret scene.

Definition getBallCreationPosition (this : loc) (table : Table) : M Vertex3D.t :=
  let* m1 := getMover this in
  let* mx := PlungerMover_x m1 in
  let* m2 := getMover this in
  let* mx2 := PlungerMover_x2 m2 in
  let x := (mx + mx2) * 0.5 in
  let* m3 := getMover this in
  let* mpos := PlungerMover_pos m3 in
  let y := mpos - (25.0 + 0.01) in
  let* p := this_ this in
  let height := getSurfaceHeight table (PlungerData.szSurface (data p)) x y in
  ret (Vertex3D.mk x y height).

Definition getBallCreationVelocity (this : loc) (table : Table) : M Vertex3D.t :=
  ret (Vertex3D.mk 0 0 0).

Definition onBallCreated (this : loc) (physics : PlayerPhysics) (ball : Ball) : M unit :=
  ret tt.

Definition getEventNames (this : loc) : M (list string) :=
  ret [ "Init"; "Timer"; "LimitEOS"; "LimitBOS" ]%string.

End PlungerClass.

(** ** The life of a plunger *)

(** What happens to the heap once a plunger exists: calls of its methods,
    and the rest of the engine at work. *)
Inductive Event : Type :=
| GetName | GetData | GetState | GetMeshes | IsVisible | IsCollidable
| SetupPlayer | GetApi | GetMover | GetHitShapes | GetEventProxy
| PullBack | Fire | ApplyState | GetBallCreationPosition
| GetBallCreationVelocity | OnBallCreated | GetEventNames
| EngineActivity.

#[global] Instance Event_eq_dec : EqDecision Event.
Proof. solve_decision. Defined.

Section Lifecycle.
Context `{Engine}.

(** One event in the life of the plunger [this].  The fields of a
    [Plunger] are private: whatever else the engine does ([EngineActivity]:
    physics ticks, rendering, scripts, other items), it does not assign
    them. *)
Inductive step (this : loc) : Event -> Heap -> Heap -> Prop :=
| step_getName h :
    step this GetName h (getName this h).2
| step_getData h :
    step this GetData h (getData this h).2
| step_getState h :
    step this GetState h (getState this h).2
| step_getMeshes table h :
    step this GetMeshes h (getMeshes this table h).2
| step_isVisible table h :
    step this IsVisible h (isVisible this table h).2
| step_isCollidable h :
    step this IsCollidable h (isCollidable this h).2
| step_setupPlayer player table h :
    step this SetupPlayer h (setupPlayer this player table h).2
| step_getApi h :
    step this GetApi h (getApi this h).2
| step_getMover h :
    step this GetMover h (getMover this h).2
| step_getHitShapes h :
    step this GetHitShapes h (getHitShapes this h).2
| step_getEventProxy h :
    step this GetEventProxy h (getEventProxy this h).2
| step_pullBack h :
    step this PullBack h (pullBack this h).2
| step_fire h :
    step this Fire h (fire this h).2
| step_applyState (NODE SCENE : Type) (R : IRenderApi NODE SCENE)
    (obj : NODE) table player (scene : SCENE) h :
    step this ApplyState h (applyState this obj table player scene h).2
| step_getBallCreationPosition table h :
    step this GetBallCreationPosition h (getBallCreationPosition this table h).2
| step_getBallCreationVelocity table h :
    step this GetBallCreationVelocity h (getBallCreationVelocity this table h).2
| step_onBallCreated physics ball h :
    step this OnBallCreated h (onBallCreated this physics ball h).2
| step_getEventNames h :
    step this GetEventNames h (getEventNames this h).2
| step_engine h h' :
    plungers h' !! this = plungers h !! this ->
    step this EngineActivity h h'.

(** A sequence of events, the earliest first. *)
Inductive history (this : loc) : list Event -> Heap -> Heap -> Prop :=
| history_nil h :
    history this [] h h
| history_cons e es h1 h2 h3 :
    step this e h1 h2 -> history this es h2 h3 ->
    history this (e :: es) h1 h3.

(** A plunger that has been set up: its collision surface and mover. *)
Definition ready (this : loc) (p : Plunger) (hl : loc) (hobj : PlungerHit)
    (m : PlungerMover.t) (h : Heap) : Prop :=
  plungers h !! this = Some p /\
  hit p = Some hl /\
  hits h !! hl = Some hobj /\
  movers h !! moverObject hobj = Some m.

(** A computation keeps a part of the heap when it never changes it,
    however it ends. *)
Definition keeps {X A} (f : Heap -> X) (m : M A) : Prop :=
  forall h, f (m h).2 = f h.

(** The heap [setupPlayer] leaves, on a plunger whose fields are [p]. *)
Definition session (this : loc) (player : Player) (table : Table)
    (p : Plunger) (h : Heap) : Heap :=
  let e := fresh (dom (proxies h)) in
  let m := fresh (dom (movers h)) in
  let hl := fresh (dom (hits h)) in
  let a := fresh (dom (apis h)) in
  mkHeap
    (<[this := mkPlunger (data p) (meshGenerator p) (state p)
                 (Some a) (Some hl) (Some e)]> (plungers h))
    (states h)
    (<[e := mkEventProxy this]> (proxies h))
    (<[hl := mkPlungerHit (data p) (state p) e (cFrames (meshGenerator p))
               (getPhysics player) table m]> (hits h))
    (<[m := PlungerMover.create
              (plungerConfig (data p) (cFrames (meshGenerator p)) table)
              (data p) (plungerTuning (data p) (getPhysics player) table)]>
       (movers h))
    (<[a := mkPlungerApi (data p) hl e this player table]> (apis h)).

(** The fields [data], [meshGenerator] and [state] are never assigned. *)
Definition sameReadonly (p p' : Plunger) : Prop :=
  data p' = data p /\ meshGenerator p' = meshGenerator p /\ state p' = state p.

(** A call fails fast when it raises. *)
Definition raises {A} (m : M A) (h : Heap) : Prop :=
  (m h).1 = ThrowTypeError.

End Lifecycle.

(** ** A small table to run the plunger on *)

Module Example.

Definition engine : Engine := {|
  Mesh := string * number;
  Material := string;
  Texture := string;
  Table := unit;
  getMaterial := fun _ n => Some n;
  getTexture := fun _ n => Some n;
  getSurfaceHeight := fun _ _ _ _ => 0;
  Player := unit;
  PlayerPhysics := unit;
  Ball := unit;
  getPhysics := fun _ => tt;
  PlungerMeshGenerator := PlungerData.t;
  new_PlungerMeshGenerator := fun d => d;
  cFrames := fun _ => 25;
  generateMeshes := fun _ f _ =>
    mkPlungerMesh (Some ("rod"%string, f)) (Some ("spring"%string, f))
      (Some ("flat"%string, f));
  plungerConfig := fun _ frames _ =>
    PlungerConfig.mk 0 1000 10 0 920 1000 frames;
  plungerTuning := fun _ _ _ =>
    PlungerMover.mkTuning 930 2 0.5 40 0.1 0.1
|}.

(** The children of one render group by name, with the mesh each shows. *)
Definition renderApi : @IRenderApi engine string (gmap string (option (string * number))) := {|
  findInGroup := fun _ k s =>
    match s !! k with
    | Some _ => Some k
    | None => None
    end;
  applyMeshToNode := fun m n s => <[n := m]> s
|}.

(** It obeys the laws of a render API. *)
Definition renderApiLaws : @RenderApiLaws engine string _ renderApi.
Proof.
  refine (@Build_RenderApiLaws engine string _ renderApi
            (fun s n => s !! n) _ _ _).
  - intros m n s. apply lookup_insert_eq.
  - intros m n n' s Hne. apply lookup_insert_ne. congruence.
  - intros m n g0 k0 g k s. cbn.
    destruct (s !! k0) as [v0|] eqn:E0; [|discriminate].
    intros [= <-]. destruct (decide (k = k0)) as [->|Hne].
    + now rewrite lookup_insert_eq, E0.
    + now rewrite lookup_insert_ne by congruence.
Defined.

Definition manual : PlungerData.t :=
  PlungerData.mk "Plunger" "Metal" "" "" true 5 false.

Definition automatic : PlungerData.t :=
  PlungerData.mk "AutoPlunger" "Metal" "" "" false 5 true.

(** A manual plunger, just constructed. *)
Definition constructed : outcome loc * @Heap engine :=
  @new_Plunger engine "Plunger" manual emptyHeap.

(** The same plunger, set up for a player. *)
Definition playing : @Heap engine :=
  (@setupPlayer engine 1%positive tt tt constructed.2).2.

(** An automatic plunger, set up for a player. *)
Definition playingAuto : @Heap engine :=
  (@setupPlayer engine 1%positive tt tt
     (@new_Plunger engine "AutoPlunger" automatic emptyHeap).2).2.

(** The objects of [playing] and of [playingAuto]. *)
Definition plunger (d : PlungerData.t) : @Plunger engine :=
  @mkPlunger engine d d 1%positive (Some 1%positive) (Some 1%positive)
    (Some 1%positive).

Definition hitObject (d : PlungerData.t) : @PlungerHit engine :=
  @mkPlungerHit engine d 1%positive 1%positive 25 tt tt 1%positive.

Definition mover (d : PlungerData.t) : PlungerMover.t :=
  PlungerMover.create (PlungerConfig.mk 0 1000 10 0 920 1000 25) d
    (PlungerMover.mkTuning 930 2 0.5 40 0.1 0.1).

(** [playing] some ticks later: the Dynamic State is at frame 3. *)
Definition advanced : @Heap engine :=
  setStates (<[1%positive := PlungerState.mk "Plunger" 3]> (states playing))
    playing.

(** A render group with a rod, a spring and a flat node, showing nothing. *)
Definition group : gmap string (option (string * number)) :=
  <["rod" := None]> (<["spring" := None]> (<["flat" := None]> ∅)).

End Example.

(** ** Loading, and calls on the mover in any heap *)

Section FromStorage.
Context `{Engine} {Storage : Type}.

(** [PlungerData.fromStorage(storage, itemName)], which [plunger.ts] only
    calls: a parameter.  The promise it returns is awaited at once, so it
    is a computation like the others; a rejection is an outcome other than
    [Return]. *)
Variable PlungerData_fromStorage : Storage -> string -> M PlungerData.t.

(** [static async fromStorage(storage, itemName)]. *)
Definition fromStorage (storage : Storage) (itemName : string) : M loc :=
  let* data := PlungerData_fromStorage storage itemName in
  new_Plunger itemName data.

End FromStorage.

Section MoverCalls.
Context `{Engine}.

(** A call on the mover of the plunger, in any heap. *)
Definition onMover (this : loc) (f : Plunger -> PlungerMover.t -> PlungerMover.t)
    (h : Heap) : outcome unit * Heap :=
  match plungers h !! this with
  | None => (BadRef, h)
  | Some p =>
      match hit p with
      | None => (ThrowTypeError, h)
      | Some hl =>
          match hits h !! hl with
          | None => (BadRef, h)
          | Some hobj =>
              match movers h !! moverObject hobj with
              | None => (BadRef, h)
              | Some m =>
                  (Return tt,
                   setMovers (<[moverObject hobj := f p m]> (movers h)) h)
              end
          end
      end
  end.

End MoverCalls.

(** ** A table with a flat plunger *)

Module FlatExample.

(** The engine of [Example], with a generator that produces the flat part
    only. *)
Definition engine : Engine := {|
  Mesh := string * number;
  Material := string;
  Texture := string;
  Table := unit;
  getMaterial := fun _ n => Some n;
  getTexture := fun _ n => Some n;
  getSurfaceHeight := fun _ _ _ _ => 0;
  Player := unit;
  PlayerPhysics := unit;
  Ball := unit;
  getPhysics := fun _ => tt;
  PlungerMeshGenerator := PlungerData.t;
  new_PlungerMeshGenerator := fun d => d;
  cFrames := fun _ => 1;
  generateMeshes := fun _ f _ =>
    mkPlungerMesh None None (Some ("flat"%string, f));
  plungerConfig := fun _ frames _ =>
    PlungerConfig.mk 0 1000 10 0 920 1000 frames;
  plungerTuning := fun _ _ _ =>
    PlungerMover.mkTuning 930 2 0.5 40 0.1 0.1
|}.

Definition renderApi :
  @IRenderApi engine string (gmap string (option (string * number))) := {|
  findInGroup := fun _ k s =>
    match s !! k with
    | Some _ => Some k
    | None => None
    end;
  applyMeshToNode := fun m n s => <[n := m]> s
|}.

Definition renderApiLaws : @RenderApiLaws engine string _ renderApi.
Proof.
  refine (@Build_RenderApiLaws engine string _ renderApi
            (fun s n => s !! n) _ _ _).
  - intros m n s. apply lookup_insert_eq.
  - intros m n n' s Hne. apply lookup_insert_ne. congruence.
  - intros m n g0 k0 g k s. cbn.
    destruct (s !! k0) as [v0|] eqn:E0; [|discriminate].
    intros [= <-]. destruct (decide (k = k0)) as [->|Hne].
    + now rewrite lookup_insert_eq, E0.
    + now rewrite lookup_insert_ne by congruence.
Defined.

(** A flat plunger, just constructed. *)
Definition constructed : @Heap engine :=
  (@new_Plunger engine "Plunger" Example.manual emptyHeap).2.

(** A render group that still has the rod node of another plunger type,
    showing an old rod. *)
Definition group : gmap string (option (string * number)) :=
  <["rod" := Some ("rod"%string, 7)]> (<["flat" := None]> ∅).

End FlatExample.

(** * Properties *)

(** ** Running methods *)

Section Running.
Context `{Engine}.

Lemma bind_ret {A B} (a : A) (k : A -> M B) h :
  bind (ret a) k h = k a h.
Proof. reflexivity. Qed.

Lemma bind_deref {A B} (table : Heap -> gmap loc A) l o (k : A -> M B) h :
  table h !! l = Some o ->
  bind (deref table l) k h = k o h.
Proof. intros E. unfold bind, deref. now rewrite E. Qed.

Lemma bind_this {B} this p (k : Plunger -> M B) h :
  plungers h !! this = Some p ->
  bind (this_ this) k h = k p h.
Proof. apply bind_deref. Qed.

Lemma bind_assoc {A B C} (m : M A) (k : A -> M B) (k' : B -> M C) h :
  bind (bind m k) k' h = bind m (fun a => bind (k a) k') h.
Proof. unfold bind. destruct (m h) as [[a| |] h']; reflexivity. Qed.

Lemma getMover_ready this p hl hobj m h :
  ready this p hl hobj m h ->
  getMover this h = (Return (moverObject hobj), h).
Proof.
  intros (Hp & Hh & Ho & _). unfold getMover.
  rewrite (bind_this _ _ _ _ Hp), Hh. unfold PlungerHit_getMoverObject.
  now rewrite (bind_deref _ _ _ _ _ Ho).
Qed.

Lemma getMover_unset this p h :
  plungers h !! this = Some p -> hit p = None ->
  getMover this h = (ThrowTypeError, h).
Proof.
  intros Hp Hh. unfold getMover. now rewrite (bind_this _ _ _ _ Hp), Hh.
Qed.

Lemma bind_getMover_ready {B} this p hl hobj m (k : loc -> M B) h :
  ready this p hl hobj m h ->
  bind (getMover this) k h = k (moverObject hobj) h.
Proof.
  intros R. unfold bind at 1. now rewrite (getMover_ready _ _ _ _ _ _ R).
Qed.

Lemma updateMover_ready this p hl hobj m f h :
  ready this p hl hobj m h ->
  updateMover (moverObject hobj) f h
  = (Return tt, setMovers (<[moverObject hobj := f m]> (movers h)) h).
Proof.
  intros (_ & _ & _ & Hm). unfold updateMover.
  now rewrite (bind_deref _ _ _ _ _ Hm).
Qed.

End Running.

(** ** The release: [fire] *)

Section Fire.
Context `{Engine}.

Lemma fire_auto this p hl hobj m h :
  ready this p hl hobj m h ->
  PlungerData.autoPlunger (data p) = true ->
  fire this h
  = (Return tt,
     setMovers (<[moverObject hobj := PlungerMover.fire (Some 1.0) m]> (movers h)) h).
Proof.
  intros R A. unfold fire.
  rewrite (bind_this _ _ _ _ (proj1 R)), A.
  rewrite (bind_getMover_ready _ _ _ _ _ _ _ R).
  apply (updateMover_ready _ _ _ _ _ _ _ R).
Qed.

Lemma fire_manual this p hl hobj m h :
  ready this p hl hobj m h ->
  PlungerData.autoPlunger (data p) = false ->
  fire this h
  = (Return tt,
     setMovers (<[moverObject hobj := PlungerMover.fire None m]> (movers h)) h).
Proof.
  intros R A. unfold fire.
  rewrite (bind_this _ _ _ _ (proj1 R)), A.
  rewrite (bind_getMover_ready _ _ _ _ _ _ _ R).
  apply (updateMover_ready _ _ _ _ _ _ _ R).
Qed.


End Fire.



(** ** Where a new ball is placed *)

Section BallCreation.
Context `{Engine}.

(** C3.  On a plunger that has been set up, [getBallCreationPosition]
    returns the midpoint [(x + x2) * 0.5] of the rod tip, the position of
    the rod minus [25.0 + 0.01], which is 25.01, and the height of the
    surface [szSurface] of the table at that point;
    [getBallCreationVelocity] returns the zero vector.  For a tip from 0
    to 10 the ball is placed at x = 5. *)
Theorem getBallCreationPosition_midpoint this table p hl hobj m h :
  ready this p hl hobj m h ->
  let x := (PlungerMover.x m + PlungerMover.x2 m) * 0.5 in
  let y := PlungerMover.pos m - (25.0 + 0.01) in
  let z := getSurfaceHeight table (PlungerData.szSurface (data p)) x y in
  getBallCreationPosition this table h = (Return (Vertex3D.mk x y z), h)
  /\ y == PlungerMover.pos m - 25.01
  /\ getBallCreationVelocity this table h = (Return (Vertex3D.mk 0 0 0), h)
  /\ (PlungerMover.x m == 0 -> PlungerMover.x2 m == 10 -> x == 5).
Proof.
  intros R. cbv zeta. repeat split.
  - unfold getBallCreationPosition.
    pose proof R as (Hp & _ & _ & Hm).
    rewrite (bind_getMover_ready _ _ _ _ _ _ _ R).
    unfold PlungerMover_x at 1. rewrite bind_assoc, (bind_deref _ _ _ _ _ Hm), bind_ret.
    rewrite (bind_getMover_ready _ _ _ _ _ _ _ R).
    unfold PlungerMover_x2 at 1. rewrite bind_assoc, (bind_deref _ _ _ _ _ Hm), bind_ret.
    rewrite (bind_getMover_ready _ _ _ _ _ _ _ R).
    unfold PlungerMover_pos at 1. rewrite bind_assoc, (bind_deref _ _ _ _ _ Hm), bind_ret.
    now rewrite (bind_this _ _ _ _ Hp).
  - lra.
  - intros X X2. rewrite X, X2. reflexivity.
Qed.

End BallCreation.

Lemma getBallCreationPosition_midpoint_witness :
  ready 1%positive (Example.plunger Example.manual) 1%positive
    (Example.hitObject Example.manual) (Example.mover Example.manual)
    Example.playing /\
  (@getBallCreationPosition Example.engine 1%positive tt Example.playing).1
  = Return (Vertex3D.mk ((0 + 10) * 0.5) (930 - (25.0 + 0.01)) 0).
Proof.
  assert (R : ready 1%positive (Example.plunger Example.manual) 1%positive
                (Example.hitObject Example.manual)
                (Example.mover Example.manual) Example.playing)
    by (repeat split; vm_compute; reflexivity).
  split; [exact R|].
  destruct (getBallCreationPosition_midpoint (H:=Example.engine)
              1%positive tt _ _ _ _ _ R) as [E _].
  rewrite E. reflexivity.
Defined.

(** ** What the renderer and the physics ask of a plunger *)

Section Rendering.
Context `{Engine}.

(** C5.  [getEventNames] returns the four names [Init], [Timer],
    [LimitEOS] and [LimitBOS], in this order and nothing else, for every
    plunger and in every heap; it leaves the heap as it is. *)
Theorem getEventNames_four this h :
  getEventNames this h
  = (Return [ "Init"; "Timer"; "LimitEOS"; "LimitBOS" ]%string, h).
Proof. reflexivity. Qed.

(** C8.  [isCollidable] returns [true] for every plunger in every heap;
    the visibility flag of the data is what [isVisible] returns and
    nothing more. *)
Theorem isCollidable_always this h :
  isCollidable this h = (Return true, h)
  /\ forall table p,
       plungers h !! this = Some p ->
       isVisible this table h = (Return (PlungerData.isVisible (data p)), h).
Proof.
  split; [reflexivity|].
  intros table p Hp. unfold isVisible. now rewrite (bind_this _ _ _ _ Hp).
Qed.

(** C7.  [getMeshes] returns a map whose keys are among [rod], [spring]
    and [flat]; each of the three is present exactly when the generator
    produced that part, and then holds that mesh with the material
    [szMaterial] and the texture [szImage] of the table. *)
Theorem getMeshes_parts this table p h :
  plungers h !! this = Some p ->
  let plunger := generateMeshes (meshGenerator p) 0 table in
  let info := fun m =>
    mkRenderInfo m (getMaterial table (PlungerData.szMaterial (data p)))
      (getTexture table (PlungerData.szImage (data p))) in
  exists meshes : gmap string RenderInfo,
    getMeshes this table h = (Return meshes, h)
    /\ dom meshes ⊆ ({[ "rod"; "spring"; "flat" ]} : gset string)
    /\ meshes !! "rod" = info <$> rod plunger
    /\ meshes !! "spring" = info <$> spring plunger
    /\ meshes !! "flat" = info <$> flat plunger.
Proof.
  intros Hp. cbv zeta. unfold getMeshes. rewrite (bind_this _ _ _ _ Hp).
  eexists. split; [reflexivity|].
  destruct (generateMeshes (meshGenerator p) 0 table) as [[r|] [s|] [f|]];
    cbn [rod spring flat];
    (split; [rewrite ?dom_insert_L, ?dom_empty_L; set_unfold; tauto|]);
    repeat split; reflexivity.
Qed.

End Rendering.

(** ** Re-applying the meshes: [applyState] *)

Section ApplyState.
Context `{Engine} {NODE SCENE : Type}.
Context `{!IRenderApi NODE SCENE} `{!RenderApiLaws NODE SCENE}.

Lemma findInGroup_after_rod (obj : NODE) (scene : SCENE) mesh k :
  findInGroup obj k
    match findInGroup obj "rod" scene with
    | Some rodObj => applyMeshToNode mesh rodObj scene
    | None => scene
    end
  = findInGroup obj k scene.
Proof.
  destruct (findInGroup obj "rod" scene) as [r|] eqn:Hr; [|reflexivity].
  exact (findInGroup_apply _ _ _ _ _ _ _ Hr).
Qed.

(** C9.  [applyState] generates the meshes of the current frame and applies
    the rod mesh to the node named [rod] and the spring mesh to the node
    named [spring], each only when the group has such a node.  Every other
    node shows what it showed before; so does a node named [flat], whatever
    the generator produced for that part. *)
Theorem applyState_rod_and_spring_only this (obj : NODE) table player
    (scene : SCENE) p st h :
  plungers h !! this = Some p ->
  states h !! state p = Some st ->
  let mesh := generateMeshes (meshGenerator p) (PlungerState.frame st) table in
  let rodObj := findInGroup obj "rod" scene in
  let springObj := findInGroup obj "spring" scene in
  exists scene',
    applyState this obj table player scene h = (Return scene', h)
    /\ (forall n, rodObj <> Some n -> springObj <> Some n ->
          nodeMesh scene' n = nodeMesh scene n)
    /\ (forall n, springObj = Some n ->
          nodeMesh scene' n = Some (spring mesh))
    /\ (forall n, rodObj = Some n -> springObj <> Some n ->
          nodeMesh scene' n = Some (rod mesh))
    /\ (forall n, findInGroup obj "flat" scene = Some n ->
          rodObj <> Some n -> springObj <> Some n ->
          nodeMesh scene' n = nodeMesh scene n)
    /\ (rodObj = None -> springObj = None -> scene' = scene).
Proof.
  intros Hp Hs. cbv zeta. unfold applyState.
  rewrite (bind_this _ _ _ _ Hp), (bind_deref _ _ _ _ _ Hs).
  eexists. split; [reflexivity|].
  rewrite findInGroup_after_rod.
  set (mesh := generateMeshes (meshGenerator p) (PlungerState.frame st) table).
  assert (Frame : forall n,
    findInGroup obj "rod" scene <> Some n ->
    findInGroup obj "spring" scene <> Some n ->
    nodeMesh
      match findInGroup obj "spring" scene with
      | Some springObj =>
          applyMeshToNode (spring mesh) springObj
            match findInGroup obj "rod" scene with
            | Some rodObj => applyMeshToNode (rod mesh) rodObj scene
            | None => scene
            end
      | None =>
          match findInGroup obj "rod" scene with
          | Some rodObj => applyMeshToNode (rod mesh) rodObj scene
          | None => scene
          end
      end n
    = nodeMesh scene n).
  { intros n Hr Hsp.
    destruct (findInGroup obj "spring" scene) as [s|],
             (findInGroup obj "rod" scene) as [r|];
      rewrite ?nodeMesh_apply_other; congruence. }
  split; [exact Frame|]. split; [|split; [|split]].
  - intros n Hsp. rewrite Hsp. apply nodeMesh_apply_same.
  - intros n Hr Hsp. rewrite Hr.
    destruct (findInGroup obj "spring" scene) as [s|].
    + rewrite nodeMesh_apply_other by congruence. apply nodeMesh_apply_same.
    + apply nodeMesh_apply_same.
  - intros n _ Hr Hsp. exact (Frame n Hr Hsp).
  - intros Hr Hsp. now rewrite Hr, Hsp.
Qed.

End ApplyState.

Lemma applyState_rod_and_spring_only_witness :
  plungers Example.playing !! 1%positive = Some (Example.plunger Example.manual) /\
  states Example.playing !! 1%positive = Some (PlungerState.mk "Plunger" 0) /\
  exists scene',
    (@applyState Example.engine _ _ Example.renderApi 1%positive "plunger"%string
       tt tt Example.group Example.playing).1 = Return scene' /\
    scene' !! "flat"%string = Some None /\
    scene' !! "rod"%string = Some (Some ("rod"%string, 0)).
Proof.
  assert (Hp : plungers Example.playing !! 1%positive
               = Some (Example.plunger Example.manual))
    by (vm_compute; reflexivity).
  assert (Hs : states Example.playing !! state (Example.plunger Example.manual)
               = Some (PlungerState.mk "Plunger" 0))
    by (vm_compute; reflexivity).
  split; [exact Hp|]. split; [exact Hs|].
  destruct (applyState_rod_and_spring_only (H:=Example.engine)
              (RenderApiLaws0:=Example.renderApiLaws)
              1%positive "plunger"%string tt tt Example.group _ _ _ Hp Hs)
    as (scene' & E & _ & _ & Hrod & Hflat & _).
  exists scene'. split; [now rewrite E|]. split.
  - apply (Hflat "flat"%string); vm_compute; congruence.
  - apply (Hrod "rod"%string); vm_compute; congruence.
Defined.

(** ** The pose of the meshes *)

Section Poses.
Context `{Engine} {NODE SCENE : Type}.
Context `{!IRenderApi NODE SCENE} `{!RenderApiLaws NODE SCENE}.

Lemma applyState_live this (obj : NODE) table player (scene : SCENE) p st h :
  plungers h !! this = Some p ->
  states h !! state p = Some st ->
  let mesh := generateMeshes (meshGenerator p) (PlungerState.frame st) table in
  let scene1 :=
    match findInGroup obj "rod" scene with
    | Some rodObj => applyMeshToNode (rod mesh) rodObj scene
    | None => scene
    end in
  applyState this obj table player scene h
  = (Return
       match findInGroup obj "spring" scene with
       | Some springObj => applyMeshToNode (spring mesh) springObj scene1
       | None => scene1
       end, h).
Proof.
  intros Hp Hs. cbv zeta. unfold applyState.
  rewrite (bind_this _ _ _ _ Hp), (bind_deref _ _ _ _ _ Hs).
  destruct (findInGroup obj "rod" scene) as [r|] eqn:Hr; [|reflexivity].
  now rewrite (findInGroup_apply _ _ _ _ _ _ _ Hr).
Qed.

Lemma getMeshes_live this table p h :
  plungers h !! this = Some p ->
  exists meshes : gmap string RenderInfo,
    getMeshes this table h = (Return meshes, h)
    /\ mesh <$> meshes !! "rod"
       = rod (generateMeshes (meshGenerator p) 0 table)
    /\ mesh <$> meshes !! "spring"
       = spring (generateMeshes (meshGenerator p) 0 table)
    /\ mesh <$> meshes !! "flat"
       = flat (generateMeshes (meshGenerator p) 0 table).
Proof.
  intros Hp. unfold getMeshes. rewrite (bind_this _ _ _ _ Hp).
  eexists. split; [reflexivity|].
  destruct (generateMeshes (meshGenerator p) 0 table) as [[r|] [s|] [f|]];
    repeat split; reflexivity.
Qed.

(** C10.  Whatever frame the Dynamic State is at, [getMeshes] returns the
    meshes the generator produces at frame 0: the rod, spring and flat
    entries hold the parts of that pose, and moving the Dynamic State to
    any other frame changes nothing of what [getMeshes] returns.
    [applyState] applies the meshes the generator produces at the current
    frame of the Dynamic State: afterwards the spring node shows the spring
    of that pose and the rod node its rod. *)
Theorem getMeshes_at_frame_zero this (obj : NODE) table player
    (scene : SCENE) p st h :
  plungers h !! this = Some p ->
  states h !! state p = Some st ->
  let pose0 := generateMeshes (meshGenerator p) 0 table in
  let pose := generateMeshes (meshGenerator p) (PlungerState.frame st) table in
  (exists meshes : gmap string RenderInfo,
     getMeshes this table h = (Return meshes, h)
     /\ mesh <$> meshes !! "rod" = rod pose0
     /\ mesh <$> meshes !! "spring" = spring pose0
     /\ mesh <$> meshes !! "flat" = flat pose0)
  /\ (forall f,
        (getMeshes this table
           (setStates (<[state p := PlungerState.setFrame f st]> (states h)) h)).1
        = (getMeshes this table h).1)
  /\ (exists scene' : SCENE,
        applyState this obj table player scene h = (Return scene', h)
        /\ (forall n, findInGroup obj "spring" scene = Some n ->
              nodeMesh scene' n = Some (spring pose))
        /\ (forall n, findInGroup obj "rod" scene = Some n ->
              findInGroup obj "spring" scene <> Some n ->
              nodeMesh scene' n = Some (rod pose))).
Proof.
  intros Hp Hs. cbv zeta.
  split; [exact (getMeshes_live _ _ _ _ Hp)|]. split.
  - intros f. unfold getMeshes.
    rewrite (bind_this _ _ _ _ Hp).
    now rewrite (bind_this this p _
                   (setStates
                      (<[state p := PlungerState.setFrame f st]> (states h)) h)
                   Hp).
  - eexists. split; [exact (applyState_live _ _ _ _ _ _ _ _ Hp Hs)|]. split.
    + intros n Hsp. rewrite Hsp. apply nodeMesh_apply_same.
    + intros n Hr Hsp. rewrite Hr.
      destruct (findInGroup obj "spring" scene) as [s|].
      * rewrite nodeMesh_apply_other by congruence. apply nodeMesh_apply_same.
      * apply nodeMesh_apply_same.
Qed.

End Poses.

(** ** From construction to the session *)

Section Lifetime.
Context `{Engine}.

Lemma keeps_ret {X A} (f : Heap -> X) (a : A) : keeps f (ret a).
Proof. intros h. reflexivity. Qed.

Lemma keeps_throw {X A} (f : Heap -> X) : keeps f (@throwTypeError _ A).
Proof. intros h. reflexivity. Qed.

Lemma keeps_deref {X A} (f : Heap -> X) (table : Heap -> gmap positive A) l :
  keeps f (deref table l).
Proof. intros h. unfold deref. now destruct (table h !! l). Qed.

Lemma keeps_modify {X} (f : Heap -> X) (g : Heap -> Heap) :
  (forall h, f (g h) = f h) -> keeps f (modify g).
Proof. intros E h. apply E. Qed.

Lemma keeps_alloc {X A} (f : Heap -> X) (table : Heap -> gmap positive A) set o :
  (forall t h, f (set t h) = f h) -> keeps f (alloc table set o).
Proof. intros E h. apply E. Qed.

Lemma keeps_bind {X A B} (f : Heap -> X) (m : M A) (k : A -> M B) :
  keeps f m -> (forall a, keeps f (k a)) -> keeps f (bind m k).
Proof.
  intros Hm Hk h. unfold bind. specialize (Hm h).
  destruct (m h) as [[a| |] h']; cbn in *; [|assumption..].
  now rewrite Hk.
Qed.

Ltac keeps_step :=
  first
    [ apply keeps_ret
    | apply keeps_throw
    | apply keeps_deref
    | apply keeps_bind; [|intros ?]
    | apply keeps_modify; reflexivity
    | apply keeps_alloc; reflexivity
    | match goal with
      | |- keeps _ (match ?x with _ => _ end) => destruct x
      end ].

Ltac keeps_all := intros; repeat keeps_step.

Lemma getMover_keeps {X} (f : Heap -> X) this : keeps f (getMover this).
Proof. unfold getMover, this_, PlungerHit_getMoverObject. keeps_all. Qed.

Lemma updateMover_keeps_plungers l g : keeps plungers (updateMover l g).
Proof. unfold updateMover. keeps_all. Qed.

Lemma updateMover_keeps_states l g : keeps states (updateMover l g).
Proof. unfold updateMover. keeps_all. Qed.

Lemma setupPlayer_keeps_states this player table :
  keeps states (setupPlayer this player table).
Proof.
  unfold setupPlayer, new_EventProxy, new_PlungerHit, new_PlungerApi, assign, this_.
  keeps_all.
Qed.

Lemma setupPlayer_live this player table p h :
  plungers h !! this = Some p ->
  setupPlayer this player table h = (Return tt, session this player table p h).
Proof.
  intros Hp. unfold setupPlayer, new_EventProxy, new_PlungerHit, new_PlungerApi.
  unfold assign, this_, bind, alloc, deref, modify. cbn.
  rewrite Hp. repeat (cbn; rewrite ?lookup_insert_eq, ?insert_insert_eq).
  reflexivity.
Qed.

Ltac unfold_methods :=
  unfold getName, getData, getState, getMeshes, isVisible, isCollidable,
    setupPlayer, getApi, getHitShapes, getEventProxy, pullBack, fire,
    applyState, getBallCreationPosition, getBallCreationVelocity,
    onBallCreated, getEventNames, getMover,
    new_EventProxy, new_PlungerHit, new_PlungerApi, PlungerState_claim,
    PlungerHit_getMoverObject, PlungerMover_pullBack, PlungerMover_fire,
    PlungerMover_step, PlungerMover_x, PlungerMover_x2, PlungerMover_pos,
    updateMover, assign, this_.

Ltac keeps_method :=
  match goal with
  | |- ?f (?m ?h).2 = ?f ?h =>
      revert h; change (keeps f m); unfold_methods; cbv zeta; keeps_all
  end.

(** No call but [setupPlayer] assigns a field of the plunger. *)
Lemma step_plungers this e h h' :
  step this e h h' -> e <> SetupPlayer ->
  plungers h' !! this = plungers h !! this.
Proof.
  intros S Ne.
  destruct S; try congruence; apply (f_equal (fun t => t !! this));
    keeps_method.
Qed.

(** No call creates, replaces or changes a Dynamic State. *)
Lemma step_states this e h h' :
  step this e h h' -> e <> EngineActivity -> states h' = states h.
Proof.
  intros S Ne. destruct S; try congruence; keeps_method.
Qed.

Lemma step_readonly this e h h' p :
  step this e h h' -> plungers h !! this = Some p ->
  exists p', plungers h' !! this = Some p' /\ sameReadonly p p'.
Proof.
  intros S Hp. destruct (decide (e = SetupPlayer)) as [->|Ne].
  - inversion S; subst. rewrite (setupPlayer_live _ _ _ _ _ Hp). cbn.
    rewrite lookup_insert_eq. eexists. split; [reflexivity|]. now repeat split.
  - exists p. rewrite (step_plungers _ _ _ _ S Ne). now repeat split.
Qed.

Lemma history_readonly this es h h' p :
  history this es h h' -> plungers h !! this = Some p ->
  exists p', plungers h' !! this = Some p' /\ sameReadonly p p'.
Proof.
  intros Hi. revert p. induction Hi as [h|e es h1 h2 h3 S _ IH]; intros p Hp.
  - exists p. now repeat split.
  - destruct (step_readonly _ _ _ _ _ S Hp) as (p2 & Hp2 & D2 & G2 & S2).
    destruct (IH _ Hp2) as (p3 & Hp3 & D3 & G3 & S3).
    exists p3. split; [assumption|]. repeat split; congruence.
Qed.

Lemma history_plungers this es h h' :
  history this es h h' -> SetupPlayer ∉ es ->
  plungers h' !! this = plungers h !! this.
Proof.
  induction 1 as [h|e es h1 h2 h3 S _ IH]; intros Ne; [reflexivity|].
  rewrite IH by set_solver. apply (step_plungers _ _ _ _ S). set_solver.
Qed.

Lemma history_states this es h h' :
  history this es h h' -> EngineActivity ∉ es -> states h' = states h.
Proof.
  induction 1 as [h|e es h1 h2 h3 S _ IH]; intros Ne; [reflexivity|].
  rewrite IH by set_solver. apply (step_states _ _ _ _ S). set_solver.
Qed.


Lemma new_Plunger_eval itemName d h :
  new_Plunger itemName d h
  = (Return (fresh (dom (plungers h))),
     mkHeap
       (<[fresh (dom (plungers h)) :=
            mkPlunger d (new_PlungerMeshGenerator d) (fresh (dom (states h)))
              None None None]> (plungers h))
       (<[fresh (dom (states h)) :=
            PlungerState.mk (PlungerData.getName d) 0]> (states h))
       (proxies h) (hits h) (movers h) (apis h)).
Proof. reflexivity. Qed.

Lemma new_Plunger_live itemName d h :
  plungers (new_Plunger itemName d h).2 !! fresh (dom (plungers h))
  = Some (mkPlunger d (new_PlungerMeshGenerator d) (fresh (dom (states h)))
            None None None).
Proof. cbn. apply lookup_insert_eq. Qed.

Lemma fresh_unused {A} (t : gmap positive A) : t !! fresh (dom t) = None.
Proof. apply not_elem_of_dom, is_fresh. Qed.

Lemma pullBack_ready this p hl hobj m h :
  ready this p hl hobj m h ->
  pullBack this h
  = (Return tt,
     setMovers
       (<[moverObject hobj :=
            PlungerMover.pullBack (PlungerData.speedPull (data p)) m]> (movers h)) h).
Proof.
  intros R. unfold pullBack.
  rewrite (bind_getMover_ready _ _ _ _ _ _ _ R).
  rewrite (bind_this _ _ _ _ (proj1 R)).
  apply (updateMover_ready _ _ _ _ _ _ _ R).
Qed.

Lemma pullBack_unset this p h :
  plungers h !! this = Some p -> hit p = None ->
  pullBack this h = (ThrowTypeError, h).
Proof.
  intros Hp Hh. unfold pullBack, bind at 1.
  now rewrite (getMover_unset _ _ _ Hp Hh).
Qed.

Lemma fire_unset this p h :
  plungers h !! this = Some p -> hit p = None ->
  fire this h = (ThrowTypeError, h).
Proof.
  intros Hp Hh. unfold fire. rewrite (bind_this _ _ _ _ Hp).
  destruct (PlungerData.autoPlunger (data p));
    unfold bind; now rewrite (getMover_unset _ _ _ Hp Hh).
Qed.

Lemma session_ready this player table p h :
  ready this
    (mkPlunger (data p) (meshGenerator p) (state p)
       (Some (fresh (dom (apis h)))) (Some (fresh (dom (hits h))))
       (Some (fresh (dom (proxies h)))))
    (fresh (dom (hits h)))
    (mkPlungerHit (data p) (state p) (fresh (dom (proxies h)))
       (cFrames (meshGenerator p)) (getPhysics player) table
       (fresh (dom (movers h))))
    (PlungerMover.create
       (plungerConfig (data p) (cFrames (meshGenerator p)) table) (data p)
       (plungerTuning (data p) (getPhysics player) table))
    (session this player table p h).
Proof.
  unfold ready, session. cbn. now rewrite !lookup_insert_eq.
Qed.

(** C6.  The constructor creates one Dynamic State, a new object with
    frame 0 and the name of the item, and nothing else in the table of
    Dynamic States.  After any sequence of calls and engine activity,
    [getState] returns that same object; and no call of a method of the
    plunger creates, replaces or changes a Dynamic State. *)
Theorem getState_same_object itemName d h0 :
  exists this st h1,
    new_Plunger itemName d h0 = (Return this, h1)
    /\ states h0 !! st = None
    /\ states h1 = <[st := PlungerState.mk (PlungerData.getName d) 0]> (states h0)
    /\ forall es h, history this es h1 h ->
         getState this h = (Return st, h)
         /\ (EngineActivity ∉ es -> states h = states h1).
Proof.
  exists (fresh (dom (plungers h0))), (fresh (dom (states h0))),
         (new_Plunger itemName d h0).2.
  split; [reflexivity|].
  split; [apply fresh_unused|]. split; [reflexivity|].
  intros es h Hi. split.
  - destruct (history_readonly _ _ _ _ _ Hi (new_Plunger_live _ _ _))
      as (p' & Hp' & _ & _ & St).
    unfold getState. rewrite (bind_this _ _ _ _ Hp'). cbn in St. now rewrite St.
  - intros Ne. apply (history_states _ _ _ _ Hi Ne).
Qed.

(** C4 (amended).  As long as [setupPlayer] has not been called on a
    plunger, [pullBack], [fire] and [getMover] raise a [TypeError] and leave
    the heap as it is, while [getApi] and [getEventProxy] return
    [undefined] and [getHitShapes] returns an array holding [undefined],
    without raising.  A call of [setupPlayer], at any time, creates a new
    event proxy, collision surface, mover and facade, bound to each other
    and to the plunger; from then on [getApi], [getHitShapes],
    [getEventProxy] and [getMover] return these objects, and [pullBack] and
    [fire] act on that mover. *)
Theorem session_calls_before_and_after_setupPlayer itemName d h0 :
  exists this h1,
    new_Plunger itemName d h0 = (Return this, h1)
    /\ (forall es h, history this es h1 h -> SetupPlayer ∉ es ->
          pullBack this h = (ThrowTypeError, h)
          /\ fire this h = (ThrowTypeError, h)
          /\ getMover this h = (ThrowTypeError, h)
          /\ getApi this h = (Return None, h)
          /\ getHitShapes this h = (Return [None], h)
          /\ getEventProxy this h = (Return None, h))
    /\ (forall es h player table, history this es h1 h ->
          exists h' e hl a hobj m p',
            setupPlayer this player table h = (Return tt, h')
            /\ proxies h !! e = None /\ hits h !! hl = None
            /\ apis h !! a = None /\ movers h !! moverObject hobj = None
            /\ ready this p' hl hobj m h'
            /\ data p' = d /\ PlungerMover.data m = d
            /\ proxies h' !! e = Some (mkEventProxy this)
            /\ apis h' !! a = Some (mkPlungerApi d hl e this player table)
            /\ getApi this h' = (Return (Some a), h')
            /\ getHitShapes this h' = (Return [Some hl], h')
            /\ getEventProxy this h' = (Return (Some e), h')
            /\ getMover this h' = (Return (moverObject hobj), h')
            /\ pullBack this h'
               = (Return tt,
                  setMovers
                    (<[moverObject hobj :=
                         PlungerMover.pullBack (PlungerData.speedPull d) m]>
                       (movers h')) h')
            /\ fire this h'
               = (Return tt,
                  setMovers
                    (<[moverObject hobj :=
                         PlungerMover.fire
                           (if PlungerData.autoPlunger d then Some 1.0 else None)
                           m]>
                       (movers h')) h')).
Proof.
  exists (fresh (dom (plungers h0))), (new_Plunger itemName d h0).2.
  split; [reflexivity|]. split.
  - intros es h Hi Ne.
    pose proof (history_plungers _ _ _ _ Hi Ne) as Hp.
    rewrite new_Plunger_live in Hp.
    split; [exact (pullBack_unset _ _ _ Hp eq_refl)|].
    split; [exact (fire_unset _ _ _ Hp eq_refl)|].
    split; [exact (getMover_unset _ _ _ Hp eq_refl)|].
    unfold getApi, getHitShapes, getEventProxy.
    now rewrite !(bind_this _ _ _ _ Hp).
  - intros es h player table Hi.
    destruct (history_readonly _ _ _ _ _ Hi (new_Plunger_live _ _ _))
      as (p & Hp & D & _ & _).
    cbn in D.
    pose proof (session_ready (fresh (dom (plungers h0))) player table p h) as R.
    pose proof R as (Hp' & _ & _ & _).
    match type of R with
    | ready _ ?p' ?hl ?hobj ?m ?h' =>
        exists h', (fresh (dom (proxies h))), hl, (fresh (dom (apis h))),
               hobj, m, p'
    end.
    split; [exact (setupPlayer_live _ _ _ _ _ Hp)|].
    do 4 (split; [apply fresh_unused|]).
    split; [exact R|]. split; [exact D|]. split; [exact D|].
    split; [cbn; apply lookup_insert_eq|].
    split; [cbn; rewrite lookup_insert_eq, D; reflexivity|].
    split; [unfold getApi; now rewrite (bind_this _ _ _ _ Hp')|].
    split; [unfold getHitShapes; now rewrite (bind_this _ _ _ _ Hp')|].
    split; [unfold getEventProxy; now rewrite (bind_this _ _ _ _ Hp')|].
    split; [exact (getMover_ready _ _ _ _ _ _ R)|].
    split.
    + rewrite (pullBack_ready _ _ _ _ _ _ R). cbn [data]. now rewrite D.
    + destruct (PlungerData.autoPlunger d) eqn:A.
      * apply (fire_auto _ _ _ _ _ _ R). cbn [data]. now rewrite D.
      * apply (fire_manual _ _ _ _ _ _ R). cbn [data]. now rewrite D.
Qed.

End Lifetime.

(** ** The rod stays within its travel *)

Section MoverBounds.
Import PlungerMover.

Lemma ltb_true a b : ltb a b = true -> a < b.
Proof.
  unfold ltb. intros E. apply negb_true_iff in E.
  apply Qnot_le_lt. intros L. apply Qle_bool_iff in L. congruence.
Qed.

Lemma ltb_false a b : ltb a b = false -> b <= a.
Proof.
  unfold ltb. intros E. apply negb_false_iff in E. now apply Qle_bool_iff.
Qed.

Lemma config_clamp m : config (clamp m) = config m.
Proof.
  unfold clamp.
  destruct (ltb (pos m) (frameTop m)); [reflexivity|].
  now destruct (ltb (frameBottom m) (pos m)).
Qed.

Lemma config_retract dt m : config (retract dt m) = config m.
Proof.
  unfold retract.
  repeat match goal with
         | |- context [if ?b then _ else _] => destruct b
         end; reflexivity.
Qed.

Lemma config_settle m : config (settle m) = config m.
Proof.
  unfold settle.
  destruct (mode m); try reflexivity;
    match goal with
    | |- context [if ?b then _ else _] => destruct b
    end; reflexivity.
Qed.

Lemma pos_settle m : pos (settle m) = pos m.
Proof.
  unfold settle.
  destruct (mode m); try reflexivity;
    match goal with
    | |- context [if ?b then _ else _] => destruct b
    end; reflexivity.
Qed.

Lemma config_step dt m : config (step dt m) = config m.
Proof.
  unfold step. rewrite config_settle, config_clamp.
  destruct (mode m); [reflexivity|apply config_retract|reflexivity].
Qed.

Lemma config_exec c m : config (exec c m) = config m.
Proof.
  destruct c as [v|s|dt]; cbn.
  - unfold pullBack. now destruct (Qeq_bool (pos m) (retractedBound m)).
  - reflexivity.
  - apply config_step.
Qed.

Lemma config_run cs m : config (run cs m) = config m.
Proof.
  revert m. induction cs as [|c cs IH]; intros m; [reflexivity|].
  cbn. unfold run in IH. now rewrite IH, config_exec.
Qed.

(** No command changes the Configuration the mover was created with. *)
Lemma data_run cs m : data (run cs m) = data m.
Proof.
  revert m. induction cs as [|c cs IH]; intros m; [reflexivity|].
  cbn. unfold run in IH. rewrite IH.
  destruct c as [v|s|dt]; cbn.
  - unfold pullBack. now destruct (Qeq_bool (pos m) (retractedBound m)).
  - reflexivity.
  - unfold step, settle, clamp, retract.
    repeat match goal with
           | |- context [match ?b with _ => _ end] => destruct b; cbn
           end; reflexivity.
Qed.

(** The clamp alone puts the rod within the bounds, wherever it was. *)
Lemma clamp_inBounds m :
  frameTop m <= frameBottom m -> inBounds (clamp m).
Proof.
  intros W. unfold inBounds, frameTop, frameBottom. rewrite config_clamp.
  fold (frameTop m) (frameBottom m). unfold clamp.
  destruct (ltb (pos m) (frameTop m)) eqn:T; cbn [pos setMotion].
  - split; [apply Qle_refl|exact W].
  - apply ltb_false in T.
    destruct (ltb (frameBottom m) (pos m)) eqn:B; cbn [pos setMotion].
    + split; [exact W|apply Qle_refl].
    + apply ltb_false in B. now split.
Qed.

(** C2.  After every tick the position of the rod lies between [frameTop]
    and [frameBottom], whatever commands (pull-backs, releases and earlier
    ticks, of any speed, strength and length) the mover has received, and
    whatever its state was before them; the bounds themselves never
    change. *)
Theorem step_keeps_rod_in_bounds (cs : list Command) (dt : number) (m : t) :
  frameTop m <= frameBottom m ->
  let m' := step dt (run cs m) in
  config m' = config m
  /\ frameTop m <= pos m' /\ pos m' <= frameBottom m.
Proof.
  intros W. cbv zeta.
  assert (C : config (step dt (run cs m)) = config m)
    by now rewrite config_step, config_run.
  split; [exact C|].
  unfold step. rewrite pos_settle.
  set (moved := match mode (run cs m) with
                | Idle => run cs m
                | Retracting => retract dt (run cs m)
                | Fired => integrate dt (run cs m)
                end).
  assert (Cm : config moved = config m).
  { subst moved. destruct (mode (run cs m));
      rewrite ?config_retract; cbn [config integrate setMotion];
      apply config_run. }
  assert (Wm : frameTop moved <= frameBottom moved)
    by (unfold frameTop, frameBottom; now rewrite Cm).
  destruct (clamp_inBounds moved Wm) as [L U].
  unfold frameTop, frameBottom in *. rewrite config_clamp, Cm in L, U.
  now split.
Qed.

End MoverBounds.

Lemma step_keeps_rod_in_bounds_witness :
  PlungerMover.frameTop (Example.mover Example.manual)
  <= PlungerMover.frameBottom (Example.mover Example.manual) /\
  920 <= PlungerMover.pos
           (PlungerMover.step 1000
              (PlungerMover.run
                 [PlungerMover.PullBack 5000; PlungerMover.Step 3;
                  PlungerMover.Fire (Some 1.0)]
                 (Example.mover Example.manual))) /\
  PlungerMover.pos
    (PlungerMover.step 1000
       (PlungerMover.run
          [PlungerMover.PullBack 5000; PlungerMover.Step 3;
           PlungerMover.Fire (Some 1.0)]
          (Example.mover Example.manual))) <= 1000.
Proof.
  assert (W : PlungerMover.frameTop (Example.mover Example.manual)
              <= PlungerMover.frameBottom (Example.mover Example.manual))
    by (vm_compute; discriminate).
  split; [exact W|].
  exact (proj2 (step_keeps_rod_in_bounds
                  [PlungerMover.PullBack 5000; PlungerMover.Step 3;
                   PlungerMover.Fire (Some 1.0)] 1000 _ W)).
Defined.

(** ** The properties on the example table *)

(** C4, as stated, fails: on the plunger of [Example.constructed], for
    which [setupPlayer] has not been called, [getApi] and [getEventProxy]
    return [undefined] and [getHitShapes] returns an array holding
    [undefined]; none of them raises. *)
Lemma getApi_before_setupPlayer_does_not_raise :
  Example.constructed.1 = Return 1%positive /\
  @getApi Example.engine 1%positive Example.constructed.2
  = (Return None, Example.constructed.2) /\
  @getHitShapes Example.engine 1%positive Example.constructed.2
  = (Return [None], Example.constructed.2) /\
  @getEventProxy Example.engine 1%positive Example.constructed.2
  = (Return None, Example.constructed.2) /\
  ~ raises (@getApi Example.engine 1%positive) Example.constructed.2 /\
  ~ raises (@getHitShapes Example.engine 1%positive) Example.constructed.2 /\
  ~ raises (@getEventProxy Example.engine 1%positive) Example.constructed.2.
Proof.
  repeat split; try (vm_compute; reflexivity); vm_compute; discriminate.
Qed.

Lemma session_calls_before_and_after_setupPlayer_witness :
  exists this h1,
    @new_Plunger Example.engine "Plunger" Example.manual emptyHeap
    = (Return this, h1)
    /\ @history Example.engine this [] h1 h1
    /\ (SetupPlayer ∉ ([] : list Event))
    /\ @pullBack Example.engine this h1 = (ThrowTypeError, h1)
    /\ @getApi Example.engine this h1 = (Return None, h1)
    /\ exists e hl a hobj m p',
         @ready Example.engine this p' hl hobj m (snd (@setupPlayer Example.engine this tt tt h1))
         /\ @getApi Example.engine this (snd (@setupPlayer Example.engine this tt tt h1))
            = (Return (Some a), (snd (@setupPlayer Example.engine this tt tt h1)))
         /\ proxies h1 !! e = None.
Proof.
  destruct (session_calls_before_and_after_setupPlayer (H:=Example.engine)
              "Plunger" Example.manual emptyHeap)
    as (this & h1 & E & Before & After).
  assert (Hi : @history Example.engine this [] h1 h1) by constructor.
  assert (Ne : SetupPlayer ∉ ([] : list Event)) by apply not_elem_of_nil.
  exists this, h1. split; [exact E|]. split; [exact Hi|]. split; [exact Ne|].
  destruct (Before [] h1 Hi Ne) as (P & _ & _ & A & _).
  split; [exact P|]. split; [exact A|].
  destruct (After [] h1 tt tt Hi)
    as (h' & e & hl & a & hobj & m & p' & S & Fe & _ & _ & _ & R & _ & _ & _
        & _ & G & _).
  exists e, hl, a, hobj, m, p'. rewrite S. cbn [snd].
  split; [exact R|]. split; [exact G|exact Fe].
Defined.

Lemma getState_same_object_witness :
  exists this st h1,
    @new_Plunger Example.engine "Plunger" Example.manual emptyHeap
    = (Return this, h1)
    /\ @history Example.engine this [SetupPlayer; Fire] h1
         (snd (@fire Example.engine this (snd (@setupPlayer Example.engine this tt tt h1))))
    /\ @getState Example.engine this (snd (@fire Example.engine this (snd (@setupPlayer Example.engine this tt tt h1))))
       = (Return st, (snd (@fire Example.engine this (snd (@setupPlayer Example.engine this tt tt h1)))))
    /\ states h1 !! st = Some (PlungerState.mk "Plunger" 0).
Proof.
  destruct (getState_same_object (H:=Example.engine)
              "Plunger" Example.manual emptyHeap)
    as (this & st & h1 & E & _ & St & Later).
  assert (Hi : @history Example.engine this [SetupPlayer; Fire] h1
                 (snd (@fire Example.engine this (snd (@setupPlayer Example.engine this tt tt h1)))))
    by (repeat econstructor).
  exists this, st, h1. split; [exact E|]. split; [exact Hi|].
  split; [exact (proj1 (Later _ _ Hi))|].
  rewrite St. apply lookup_insert_eq.
Defined.

Lemma getMeshes_parts_witness :
  plungers Example.playing !! 1%positive
  = Some (Example.plunger Example.manual) /\
  exists meshes,
    (@getMeshes Example.engine 1%positive tt Example.playing).1 = Return meshes
    /\ meshes !! "rod"%string
       = Some (@mkRenderInfo Example.engine ("rod"%string, 0)
                 (Some "Metal"%string) (Some ""%string))
    /\ meshes !! "lamp"%string = None.
Proof.
  assert (Hp : plungers Example.playing !! 1%positive
               = Some (Example.plunger Example.manual))
    by (vm_compute; reflexivity).
  split; [exact Hp|].
  destruct (getMeshes_parts (H:=Example.engine) 1%positive tt _ _ Hp)
    as (meshes & E & Dom & Rod & _).
  exists meshes. split; [now rewrite E|]. split; [exact Rod|].
  apply not_elem_of_dom. intros In. apply Dom in In.
  set_unfold. destruct In as [[In|In]|In]; discriminate In.
Defined.

Lemma isCollidable_always_witness :
  plungers Example.playingAuto !! 1%positive
  = Some (Example.plunger Example.automatic) /\
  @isVisible Example.engine 1%positive tt Example.playingAuto
  = (Return false, Example.playingAuto) /\
  @isCollidable Example.engine 1%positive Example.playingAuto
  = (Return true, Example.playingAuto).
Proof.
  assert (Hp : plungers Example.playingAuto !! 1%positive
               = Some (Example.plunger Example.automatic))
    by (vm_compute; reflexivity).
  split; [exact Hp|].
  destruct (isCollidable_always (H:=Example.engine) 1%positive
              Example.playingAuto) as [C V].
  split; [exact (V tt _ Hp)|exact C].
Defined.

Lemma getMeshes_at_frame_zero_witness :
  plungers Example.advanced !! 1%positive
  = Some (Example.plunger Example.manual) /\
  states Example.advanced !! 1%positive = Some (PlungerState.mk "Plunger" 3) /\
  (exists meshes : gmap string (@RenderInfo Example.engine),
     (@getMeshes Example.engine 1%positive tt Example.advanced).1
     = Return meshes
     /\ @mesh Example.engine <$> meshes !! "rod"%string
        = Some ("rod"%string, 0)) /\
  (exists scene',
     (@applyState Example.engine _ _ Example.renderApi 1%positive
        "plunger"%string tt tt Example.group Example.advanced).1
     = Return scene'
     /\ scene' !! "rod"%string = Some (Some ("rod"%string, 3))).
Proof.
  assert (Hp : plungers Example.advanced !! 1%positive
               = Some (Example.plunger Example.manual))
    by (vm_compute; reflexivity).
  assert (Hs : states Example.advanced
               !! state (Example.plunger Example.manual)
               = Some (PlungerState.mk "Plunger" 3))
    by (vm_compute; reflexivity).
  split; [exact Hp|]. split; [exact Hs|].
  destruct (getMeshes_at_frame_zero (H:=Example.engine)
              (RenderApiLaws0:=Example.renderApiLaws)
              1%positive "plunger"%string tt tt Example.group _ _ _ Hp Hs)
    as ((meshes & G & Rod & _) & _ & (scene' & A & _ & ARod)).
  split.
  - exists meshes. split; [now rewrite G|exact Rod].
  - exists scene'. split; [now rewrite A|].
    apply (ARod "rod"%string); vm_compute; congruence.
Defined.

(** On the example table [applyState] follows the frame: at frame 3 the rod
    node shows the rod of frame 3, while [getMeshes] still returns the rod
    of frame 0. *)
Lemma applyState_follows_frame :
  (exists scene,
     (@applyState Example.engine _ _ Example.renderApi 1%positive
        "plunger"%string tt tt Example.group Example.advanced).1
     = Return scene
     /\ scene !! "rod"%string = Some (Some ("rod"%string, 3)))
  /\ (exists meshes : gmap string (@RenderInfo Example.engine),
        (@getMeshes Example.engine 1%positive tt Example.advanced).1
        = Return meshes
        /\ @mesh Example.engine <$> meshes !! "rod"%string
           = Some ("rod"%string, 0)).
Proof.
  split; eexists; (split; [vm_compute; reflexivity|]); vm_compute; reflexivity.
Qed.

(** * Further properties *)

Ltac frame_step :=
  first
    [ apply keeps_ret
    | apply keeps_throw
    | apply keeps_deref
    | apply keeps_bind; [|intros ?]
    | apply keeps_modify; reflexivity
    | apply keeps_alloc; reflexivity
    | match goal with
      | |- keeps _ (match ?x with _ => _ end) => destruct x
      end ].

Ltac unfold_calls :=
  unfold getName, getData, getState, getMeshes, isVisible, isCollidable,
    setupPlayer, getApi, getHitShapes, getEventProxy, pullBack, fire,
    applyState, getBallCreationPosition, getBallCreationVelocity,
    onBallCreated, getEventNames, getMover,
    new_EventProxy, new_PlungerHit, new_PlungerApi, PlungerState_claim,
    PlungerHit_getMoverObject, PlungerMover_pullBack, PlungerMover_fire,
    PlungerMover_step, PlungerMover_x, PlungerMover_x2, PlungerMover_pos,
    updateMover, assign, this_.

Ltac readonly_method :=
  match goal with
  | |- (?m ?h).2 = ?h =>
      let K := fresh in
      assert (K : keeps (fun h => h) m)
        by (unfold_calls; cbv zeta; intros; repeat frame_step);
      exact (K h)
  end.

Section More.
Context `{Engine}.

(** ** [pullBack] and [fire] in any heap *)

Lemma updateMover_cases l f h :
  updateMover l f h
  = match movers h !! l with
    | Some m => (Return tt, setMovers (<[l := f m]> (movers h)) h)
    | None => (BadRef, h)
    end.
Proof. unfold updateMover, bind, deref, modify. now destruct (movers h !! l). Qed.

Lemma getMover_cases this h :
  getMover this h
  = match plungers h !! this with
    | None => (BadRef, h)
    | Some p =>
        match hit p with
        | None => (ThrowTypeError, h)
        | Some hl =>
            match hits h !! hl with
            | Some hobj => (Return (moverObject hobj), h)
            | None => (BadRef, h)
            end
        end
    end.
Proof.
  unfold getMover, this_, PlungerHit_getMoverObject, bind, deref, ret,
    throwTypeError.
  destruct (plungers h !! this) as [p|]; [|reflexivity].
  destruct (hit p) as [hl|]; [|reflexivity].
  now destruct (hits h !! hl).
Qed.

Lemma pullBack_cases this h :
  pullBack this h
  = onMover this
      (fun p => PlungerMover.pullBack (PlungerData.speedPull (data p))) h.
Proof.
  unfold pullBack, onMover, PlungerMover_pullBack. unfold bind at 1.
  rewrite getMover_cases.
  destruct (plungers h !! this) as [p|] eqn:Hp; [|reflexivity].
  destruct (hit p) as [hl|]; [|reflexivity].
  destruct (hits h !! hl) as [hobj|]; [|reflexivity].
  now rewrite (bind_this _ _ _ _ Hp), updateMover_cases.
Qed.

Lemma fire_cases this h :
  fire this h
  = onMover this
      (fun p =>
         PlungerMover.fire
           (if PlungerData.autoPlunger (data p) then Some 1.0 else None)) h.
Proof.
  unfold fire, onMover, PlungerMover_fire, this_. unfold bind at 1, deref.
  destruct (plungers h !! this) as [p|] eqn:Hp; [|reflexivity].
  destruct (PlungerData.autoPlunger (data p));
    unfold bind; rewrite getMover_cases, Hp;
    (destruct (hit p) as [hl|]; [|reflexivity]);
    (destruct (hits h !! hl) as [hobj|]; [|reflexivity]);
    now rewrite updateMover_cases.
Qed.

(** ** The data of a plunger *)

Lemma readonly_calls this p table h :
  plungers h !! this = Some p ->
  getData this h = (Return (data p), h)
  /\ getName this h = (Return (PlungerData.name (data p)), h)
  /\ isVisible this table h = (Return (PlungerData.isVisible (data p)), h).
Proof.
  intros Hp. unfold getData, getName, isVisible.
  now rewrite !(bind_this _ _ _ _ Hp).
Qed.

(** X3.  The constructor does not use [itemName]: whatever name it is
    given, it builds the same plunger.  From then on, whatever is called,
    [getData] returns the data the constructor received, [getName] the name
    in that data and [isVisible] its visibility flag. *)
Theorem constructor_data_round_trip itemName itemName' d h0 this h1 :
  new_Plunger itemName d h0 = (Return this, h1) ->
  new_Plunger itemName' d h0 = (Return this, h1)
  /\ forall es h table,
       history this es h1 h ->
       getData this h = (Return d, h)
       /\ getName this h = (Return (PlungerData.name d), h)
       /\ isVisible this table h = (Return (PlungerData.isVisible d), h).
Proof.
  intros E. split; [exact E|].
  intros es h table Hi.
  rewrite new_Plunger_eval in E. injection E as <- <-.
  destruct (history_readonly _ _ _ _ _ Hi (new_Plunger_live itemName d h0))
    as (p & Hp & D & _ & _).
  cbn in D. rewrite <- D. exact (readonly_calls _ _ _ _ Hp).
Qed.

(** ** The meshes over time *)

Lemma getMeshes_readonly this table p p' h h' :
  plungers h !! this = Some p ->
  plungers h' !! this = Some p' ->
  sameReadonly p p' ->
  (getMeshes this table h').1 = (getMeshes this table h).1.
Proof.
  intros Hp Hp' (D & G & _). unfold getMeshes.
  rewrite (bind_this _ _ _ _ Hp), (bind_this _ _ _ _ Hp').
  now rewrite D, G.
Qed.

(** X4.  [getMeshes] returns the same meshes at any two moments of the
    life of a plunger, whatever was called and whatever the engine did in
    between. *)
Theorem getMeshes_never_changes this table p es h h' :
  plungers h !! this = Some p ->
  history this es h h' ->
  (getMeshes this table h').1 = (getMeshes this table h).1.
Proof.
  intros Hp Hi.
  destruct (history_readonly _ _ _ _ _ Hi Hp) as (p' & Hp' & R).
  exact (getMeshes_readonly _ _ _ _ _ _ Hp Hp' R).
Qed.


(** ** [setupPlayer], again *)

(** X5.  [setupPlayer] on a plunger returns normally and builds the
    collision surface from the plunger's own data, Dynamic State (the one
    [getState] returns), frame count of its mesh generator, the physics of
    the player and the table; the event proxy is made for this plunger and
    is the one given to the collision surface and to the facade; the facade
    is made for this plunger, player and table, around that collision
    surface. *)
Theorem setupPlayer_binds_session this player table p h :
  plungers h !! this = Some p ->
  exists e hl a hobj facade,
    (setupPlayer this player table h).1 = Return tt
    /\ getEventProxy this (setupPlayer this player table h).2
       = (Return (Some e), (setupPlayer this player table h).2)
    /\ getHitShapes this (setupPlayer this player table h).2
       = (Return [Some hl], (setupPlayer this player table h).2)
    /\ getApi this (setupPlayer this player table h).2
       = (Return (Some a), (setupPlayer this player table h).2)
    /\ getState this (setupPlayer this player table h).2
       = (Return (state p), (setupPlayer this player table h).2)
    /\ hits (setupPlayer this player table h).2 !! hl = Some hobj
    /\ apis (setupPlayer this player table h).2 !! a = Some facade
    /\ proxies (setupPlayer this player table h).2 !! e
       = Some (mkEventProxy this)
    /\ hitData hobj = data p
    /\ hitState hobj = state p
    /\ hitEvents hobj = e
    /\ hitFrames hobj = cFrames (meshGenerator p)
    /\ hitPhysics hobj = getPhysics player
    /\ hitTable hobj = table
    /\ facade = mkPlungerApi (data p) hl e this player table.
Proof.
  intros Hp. rewrite (setupPlayer_live _ _ _ _ _ Hp). cbn [fst snd].
  pose proof (session_ready this player table p h) as (Hp' & _ & Hh & _).
  do 5 eexists. split; [reflexivity|].
  unfold getEventProxy, getHitShapes, getApi, getState.
  rewrite !(bind_this _ _ _ _ Hp'). cbn [events hit api state].
  do 4 (split; [reflexivity|]).
  split; [exact Hh|].
  split; [cbn; apply lookup_insert_eq|].
  split; [cbn; apply lookup_insert_eq|].
  now repeat split.
Qed.

(** X6.  [setupPlayer] adds objects and assigns fields of its own
    plunger; every event proxy, collision surface, mover and facade that
    existed before the call is still there unchanged, and no other plunger
    is touched. *)
Theorem setupPlayer_keeps_the_rest this player table p h :
  plungers h !! this = Some p ->
  proxies h ⊆ proxies (setupPlayer this player table h).2
  /\ hits h ⊆ hits (setupPlayer this player table h).2
  /\ movers h ⊆ movers (setupPlayer this player table h).2
  /\ apis h ⊆ apis (setupPlayer this player table h).2
  /\ forall other,
       other <> this ->
       plungers (setupPlayer this player table h).2 !! other
       = plungers h !! other.
Proof.
  intros Hp. rewrite (setupPlayer_live _ _ _ _ _ Hp). cbn.
  do 4 (split; [apply insert_subseteq, fresh_unused|]).
  intros other Ne. now apply lookup_insert_ne.
Qed.

(** X7.  A second [setupPlayer] replaces the session: the plunger then
    answers with a collision surface and a mover that are new objects, the
    mover being a newly created one; the collision surface and the mover of
    the earlier session stay in the heap as they were, no longer used by
    the plunger. *)
Theorem setupPlayer_again_starts_afresh this player table p hl hobj m h :
  ready this p hl hobj m h ->
  exists hl' hobj',
    getHitShapes this (setupPlayer this player table h).2
    = (Return [Some hl'], (setupPlayer this player table h).2)
    /\ getMover this (setupPlayer this player table h).2
       = (Return (moverObject hobj'), (setupPlayer this player table h).2)
    /\ hits (setupPlayer this player table h).2 !! hl' = Some hobj'
    /\ hl' <> hl
    /\ moverObject hobj' <> moverObject hobj
    /\ movers (setupPlayer this player table h).2 !! moverObject hobj'
       = Some (PlungerMover.create
                 (plungerConfig (data p) (cFrames (meshGenerator p)) table)
                 (data p) (plungerTuning (data p) (getPhysics player) table))
    /\ hits (setupPlayer this player table h).2 !! hl = Some hobj
    /\ movers (setupPlayer this player table h).2 !! moverObject hobj = Some m.
Proof.
  intros (Hp & Hh & Ho & Hm).
  rewrite (setupPlayer_live _ _ _ _ _ Hp). cbn [snd].
  pose proof (session_ready this player table p h) as R.
  pose proof R as (Hp' & _ & Ho' & Hm').
  assert (Nh : fresh (dom (hits h)) <> hl).
  { intros E. pose proof (fresh_unused (hits h)) as F. rewrite E in F.
    congruence. }
  assert (Nm : fresh (dom (movers h)) <> moverObject hobj).
  { intros E. pose proof (fresh_unused (movers h)) as F. rewrite E in F.
    congruence. }
  do 2 eexists.
  split; [unfold getHitShapes; now rewrite (bind_this _ _ _ _ Hp')|].
  split; [exact (getMover_ready _ _ _ _ _ _ R)|].
  split; [exact Ho'|]. split; [exact Nh|]. split; [exact Nm|].
  split; [exact Hm'|].
  split; cbn; rewrite lookup_insert_ne by assumption; assumption.
Qed.


(** ** Once set up, always set up *)

Lemma onMover_ready this f p hl hobj m h :
  ready this p hl hobj m h ->
  onMover this f h
  = (Return tt, setMovers (<[moverObject hobj := f p m]> (movers h)) h)
  /\ ready this p hl hobj (f p m)
       (setMovers (<[moverObject hobj := f p m]> (movers h)) h).
Proof.
  intros (Hp & Hh & Ho & Hm). unfold onMover. rewrite Hp, Hh, Ho, Hm.
  split; [reflexivity|]. unfold ready. cbn. now rewrite lookup_insert_eq.
Qed.

Lemma step_ready this e h h' p hl hobj m :
  step this e h h' -> e <> EngineActivity ->
  ready this p hl hobj m h ->
  exists p' hl' hobj' m', ready this p' hl' hobj' m' h'.
Proof.
  intros S Ne R.
  destruct S; try congruence;
    try (exists p, hl, hobj, m;
         match goal with
         | |- ready _ _ _ _ _ ?x =>
             replace x with h by (symmetry; readonly_method)
         end; exact R).
  - rewrite (setupPlayer_live _ _ _ _ _ (proj1 R)). cbn [snd].
    do 4 eexists. apply session_ready.
  - rewrite pullBack_cases.
    destruct (onMover_ready this
                (fun p => PlungerMover.pullBack (PlungerData.speedPull (data p)))
                _ _ _ _ _ R) as [-> R'].
    do 4 eexists. exact R'.
  - rewrite fire_cases.
    destruct (onMover_ready this
                (fun p =>
                   PlungerMover.fire
                     (if PlungerData.autoPlunger (data p) then Some 1.0
                      else None))
                _ _ _ _ _ R) as [-> R'].
    do 4 eexists. exact R'.
Qed.

Lemma getBallCreationPosition_ready this table p hl hobj m h :
  ready this p hl hobj m h ->
  exists v, getBallCreationPosition this table h = (Return v, h).
Proof.
  intros R. unfold getBallCreationPosition.
  pose proof R as (Hp & _ & _ & Hm).
  rewrite (bind_getMover_ready _ _ _ _ _ _ _ R).
  unfold PlungerMover_x at 1.
  rewrite bind_assoc, (bind_deref _ _ _ _ _ Hm), bind_ret.
  rewrite (bind_getMover_ready _ _ _ _ _ _ _ R).
  unfold PlungerMover_x2 at 1.
  rewrite bind_assoc, (bind_deref _ _ _ _ _ Hm), bind_ret.
  rewrite (bind_getMover_ready _ _ _ _ _ _ _ R).
  unfold PlungerMover_pos at 1.
  rewrite bind_assoc, (bind_deref _ _ _ _ _ Hm), bind_ret.
  rewrite (bind_this _ _ _ _ Hp). eexists. reflexivity.
Qed.

(** X8.  Once a plunger has been set up, [getMover], [pullBack], [fire] and
    [getBallCreationPosition] return normally after any further sequence of
    calls of its methods, [setupPlayer] included. *)
Theorem session_calls_never_raise_again this p hl hobj m es h h' table :
  ready this p hl hobj m h ->
  history this es h h' ->
  EngineActivity ∉ es ->
  (exists l, getMover this h' = (Return l, h'))
  /\ (pullBack this h').1 = Return tt
  /\ (fire this h').1 = Return tt
  /\ (exists v, getBallCreationPosition this table h' = (Return v, h')).
Proof.
  intros R Hi. revert p hl hobj m R.
  induction Hi as [h|e es h1 h2 h3 S _ IH]; intros p hl hobj m R Ne.
  - split; [eexists; exact (getMover_ready _ _ _ _ _ _ R)|].
    rewrite pullBack_cases, fire_cases.
    split; [now rewrite (proj1 (onMover_ready _ _ _ _ _ _ _ R))|].
    split; [now rewrite (proj1 (onMover_ready _ _ _ _ _ _ _ R))|].
    exact (getBallCreationPosition_ready _ _ _ _ _ _ _ R).
  - apply not_elem_of_cons in Ne as [Ne1 Ne2].
    destruct (step_ready _ _ _ _ _ _ _ _ S (not_eq_sym Ne1) R)
      as (p' & hl' & hobj' & m' & R').
    exact (IH _ _ _ _ R' Ne2).
Qed.

(** ** Before the session *)

(** X9.  As long as [setupPlayer] has not been called,
    [getBallCreationPosition] raises a [TypeError] and changes nothing,
    while [getBallCreationVelocity] and [getMeshes] return normally. *)
Theorem getBallCreationPosition_needs_session itemName d h0 this h1 es h table :
  new_Plunger itemName d h0 = (Return this, h1) ->
  history this es h1 h ->
  SetupPlayer ∉ es ->
  getBallCreationPosition this table h = (ThrowTypeError, h)
  /\ getBallCreationVelocity this table h = (Return (Vertex3D.mk 0 0 0), h)
  /\ exists meshes, getMeshes this table h = (Return meshes, h).
Proof.
  intros E Hi Ne. rewrite new_Plunger_eval in E. injection E as <- <-.
  pose proof (history_plungers _ _ _ _ Hi Ne) as Hp.
  cbn in Hp. rewrite lookup_insert_eq in Hp.
  split.
  - unfold getBallCreationPosition, bind at 1.
    now rewrite (getMover_unset _ _ _ Hp eq_refl).
  - split; [reflexivity|].
    unfold getMeshes. rewrite (bind_this _ _ _ _ Hp). eexists. reflexivity.
Qed.


(** ** Two plungers *)

Lemma new_Plunger_spec itemName d h this h' :
  new_Plunger itemName d h = (Return this, h') ->
  exists st,
    plungers h !! this = None
    /\ states h !! st = None
    /\ plungers h' !! this
       = Some (mkPlunger d (new_PlungerMeshGenerator d) st None None None)
    /\ states h' !! st = Some (PlungerState.mk (PlungerData.getName d) 0)
    /\ (forall l, l <> this -> plungers h' !! l = plungers h !! l)
    /\ (forall l, l <> st -> states h' !! l = states h !! l).
Proof.
  rewrite new_Plunger_eval. intros [= <- <-].
  exists (fresh (dom (states h))). cbn.
  split; [apply fresh_unused|]. split; [apply fresh_unused|].
  split; [apply lookup_insert_eq|]. split; [apply lookup_insert_eq|].
  split; intros l Ne; now apply lookup_insert_ne.
Qed.

(** X10.  Two plungers constructed one after the other are different
    objects with different Dynamic States; constructing the second leaves
    the first and its Dynamic State as they were, and each keeps its own
    data. *)
Theorem plungers_do_not_share_state name1 d1 name2 d2 h0 this1 h1 this2 h2 :
  new_Plunger name1 d1 h0 = (Return this1, h1) ->
  new_Plunger name2 d2 h1 = (Return this2, h2) ->
  exists st1 st2,
    getState this1 h2 = (Return st1, h2)
    /\ getState this2 h2 = (Return st2, h2)
    /\ this1 <> this2
    /\ st1 <> st2
    /\ plungers h2 !! this1 = plungers h1 !! this1
    /\ states h2 !! st1 = states h1 !! st1
    /\ getData this1 h2 = (Return d1, h2)
    /\ getData this2 h2 = (Return d2, h2).
Proof.
  intros E1 E2.
  destruct (new_Plunger_spec _ _ _ _ _ E1) as (st1 & _ & _ & P1 & S1 & _ & _).
  destruct (new_Plunger_spec _ _ _ _ _ E2)
    as (st2 & F2 & G2 & P2 & S2 & Po & So).
  assert (Np : this1 <> this2) by congruence.
  assert (Ns : st1 <> st2) by congruence.
  assert (P1' : plungers h2 !! this1 = plungers h1 !! this1)
    by now apply Po.
  exists st1, st2. unfold getState, getData.
  rewrite !(bind_this _ _ _ _ (eq_trans P1' P1)), !(bind_this _ _ _ _ P2).
  repeat split; try assumption. now apply So.
Qed.

End More.

(** ** Loading from storage *)

Section Loading.
Context `{Engine} {Storage : Type}.
Variable load : Storage -> string -> M PlungerData.t.

(** X11.  [fromStorage] constructs the plunger from the loaded data, as
    the constructor does: a new plunger, which returns that data and has no
    session yet.  When loading fails, [fromStorage] fails in the same way
    and constructs nothing. *)
Theorem fromStorage_creates_or_fails storage itemName h :
  match load storage itemName h with
  | (Return d, h') =>
      fromStorage load storage itemName h = new_Plunger itemName d h'
      /\ exists this,
           (fromStorage load storage itemName h).1 = Return this
           /\ plungers h' !! this = None
           /\ getData this (fromStorage load storage itemName h).2
              = (Return d, (fromStorage load storage itemName h).2)
           /\ getApi this (fromStorage load storage itemName h).2
              = (Return None, (fromStorage load storage itemName h).2)
  | (_, h') =>
      (fromStorage load storage itemName h).2 = h'
      /\ forall this, (fromStorage load storage itemName h).1 <> Return this
  end.
Proof.
  unfold fromStorage, bind.
  destruct (load storage itemName h) as [[d| |] h']; [|now split..].
  split; [reflexivity|].
  exists (fresh (dom (plungers h'))). split; [reflexivity|].
  split; [apply fresh_unused|].
  unfold getData, getApi.
  now rewrite !(bind_this _ _ _ _ (new_Plunger_live itemName d h')).
Qed.

End Loading.

(** ** What [applyState] shows *)

Section Showing.
Context `{Engine} {NODE SCENE : Type}.
Context `{!IRenderApi NODE SCENE} `{!RenderApiLaws NODE SCENE}.

(** X13.  When the generator produces no rod, [getMeshes] returns no [rod]
    entry, but [applyState] still applies the missing mesh, [undefined], to
    a rod node of the group: the node shows [undefined] afterwards. *)
Theorem applyState_applies_a_missing_part this (obj : NODE) table player
    (scene : SCENE) p st h n :
  plungers h !! this = Some p ->
  states h !! state p = Some st ->
  rod (generateMeshes (meshGenerator p) (PlungerState.frame st) table) = None ->
  rod (generateMeshes (meshGenerator p) 0 table) = None ->
  findInGroup obj "rod" scene = Some n ->
  findInGroup obj "spring" scene <> Some n ->
  exists (scene' : SCENE) (meshes : gmap string RenderInfo),
    applyState this obj table player scene h = (Return scene', h)
    /\ nodeMesh scene' n = Some None
    /\ getMeshes this table h = (Return meshes, h)
    /\ meshes !! "rod" = None.
Proof.
  intros Hp Hs R R0 Hr Hsp.
  eexists. eexists.
  split; [exact (applyState_live _ _ _ _ _ _ _ _ Hp Hs)|].
  split.
  - rewrite Hr, R.
    destruct (findInGroup obj "spring" scene) as [s|].
    + rewrite nodeMesh_apply_other by congruence. apply nodeMesh_apply_same.
    + apply nodeMesh_apply_same.
  - unfold getMeshes. rewrite (bind_this _ _ _ _ Hp). split; [reflexivity|].
    rewrite R0.
    destruct (generateMeshes (meshGenerator p) 0 table) as [r [s|] [f|]];
      reflexivity.
Qed.

End Showing.


(** ** The further properties on the example tables *)

Lemma example_history :
  @history Example.engine 1%positive [SetupPlayer; PullBack; SetupPlayer; Fire]
    Example.constructed.2
    (snd (@fire Example.engine 1%positive
            (snd (@setupPlayer Example.engine 1%positive tt tt
                    (snd (@pullBack Example.engine 1%positive
                            Example.playing)))))).
Proof.
  apply (@history_cons Example.engine _ _ _ _ _ _ (@step_setupPlayer Example.engine 1%positive tt tt _)).
  apply (@history_cons Example.engine _ _ _ _ _ _ (@step_pullBack Example.engine 1%positive _)).
  apply (@history_cons Example.engine _ _ _ _ _ _ (@step_setupPlayer Example.engine 1%positive tt tt _)).
  apply (@history_cons Example.engine _ _ _ _ _ _ (@step_fire Example.engine 1%positive _)).
  apply (@history_nil Example.engine).
Qed.

Lemma constructor_data_round_trip_witness :
  @new_Plunger Example.engine "Plunger" Example.manual emptyHeap
  = (Return 1%positive, Example.constructed.2) /\
  @new_Plunger Example.engine "Some other name" Example.manual emptyHeap
  = (Return 1%positive, Example.constructed.2) /\
  @getName Example.engine 1%positive Example.playing
  = (Return "Plunger"%string, Example.playing).
Proof.
  assert (E : @new_Plunger Example.engine "Plunger" Example.manual emptyHeap
              = (Return 1%positive, Example.constructed.2)) by reflexivity.
  split; [exact E|].
  destruct (constructor_data_round_trip (H:=Example.engine)
              "Plunger" "Some other name" _ _ _ _ E) as [Same Later].
  split; [exact Same|].
  refine (proj1 (proj2 (Later [SetupPlayer] Example.playing tt _))).
  apply (@history_cons Example.engine _ _ _ _ _ _ (@step_setupPlayer Example.engine 1%positive tt tt _)).
  apply (@history_nil Example.engine).
Defined.

Lemma getMeshes_never_changes_witness :
  plungers Example.constructed.2 !! 1%positive
  = Some (@mkPlunger Example.engine Example.manual Example.manual 1%positive
            None None None) /\
  (@getMeshes Example.engine 1%positive tt
     (snd (@fire Example.engine 1%positive
             (snd (@setupPlayer Example.engine 1%positive tt tt
                     (snd (@pullBack Example.engine 1%positive
                             Example.playing))))))).1
  = (@getMeshes Example.engine 1%positive tt Example.constructed.2).1.
Proof.
  assert (Hp : plungers Example.constructed.2 !! 1%positive
               = Some (@mkPlunger Example.engine Example.manual Example.manual
                         1%positive None None None))
    by (vm_compute; reflexivity).
  split; [exact Hp|].
  exact (getMeshes_never_changes (H:=Example.engine) _ tt _ _ _ _ Hp
           example_history).
Defined.

Lemma setupPlayer_binds_session_witness :
  plungers Example.constructed.2 !! 1%positive
  = Some (@mkPlunger Example.engine Example.manual Example.manual 1%positive
            None None None) /\
  exists hobj,
    hits Example.playing !! 1%positive = Some hobj /\
    @hitState Example.engine hobj = 1%positive.
Proof.
  assert (Hp : plungers Example.constructed.2 !! 1%positive
               = Some (@mkPlunger Example.engine Example.manual Example.manual
                         1%positive None None None))
    by (vm_compute; reflexivity).
  split; [exact Hp|].
  destruct (setupPlayer_binds_session (H:=Example.engine) 1%positive tt tt _ _ Hp)
    as (e & hl & a & hobj & facade & _ & _ & Sh & _ & _ & Hh & _ & _ & _ & St & _).
  exists hobj. split; [|exact St].
  assert (L : hl = 1%positive) by (vm_compute in Sh; congruence).
  rewrite <- L. exact Hh.
Defined.

Lemma setupPlayer_keeps_the_rest_witness :
  plungers Example.playing !! 1%positive
  = Some (Example.plunger Example.manual) /\
  movers Example.playing
  ⊆ movers (snd (@setupPlayer Example.engine 1%positive tt tt Example.playing)) /\
  plungers (snd (@setupPlayer Example.engine 1%positive tt tt Example.playing))
  !! 2%positive = None.
Proof.
  assert (Hp : plungers Example.playing !! 1%positive
               = Some (Example.plunger Example.manual))
    by (vm_compute; reflexivity).
  split; [exact Hp|].
  destruct (setupPlayer_keeps_the_rest (H:=Example.engine) 1%positive tt tt _ _ Hp)
    as (_ & _ & Mv & _ & Other).
  split; [exact Mv|].
  rewrite (Other 2%positive) by discriminate. vm_compute. reflexivity.
Defined.

Lemma setupPlayer_again_starts_afresh_witness :
  ready 1%positive (Example.plunger Example.manual) 1%positive
    (Example.hitObject Example.manual) (Example.mover Example.manual)
    Example.playing /\
  movers (snd (@setupPlayer Example.engine 1%positive tt tt Example.playing))
  !! 1%positive = Some (Example.mover Example.manual).
Proof.
  assert (R : ready 1%positive (Example.plunger Example.manual) 1%positive
                (Example.hitObject Example.manual)
                (Example.mover Example.manual) Example.playing)
    by (repeat split; vm_compute; reflexivity).
  split; [exact R|].
  destruct (setupPlayer_again_starts_afresh (H:=Example.engine)
              1%positive tt tt _ _ _ _ _ R)
    as (hl' & hobj' & _ & _ & _ & _ & _ & _ & _ & Old).
  exact Old.
Defined.

Lemma session_calls_never_raise_again_witness :
  ready 1%positive (Example.plunger Example.manual) 1%positive
    (Example.hitObject Example.manual) (Example.mover Example.manual)
    Example.playing /\
  @history Example.engine 1%positive [PullBack; SetupPlayer; Fire]
    Example.playing
    (snd (@fire Example.engine 1%positive
            (snd (@setupPlayer Example.engine 1%positive tt tt
                    (snd (@pullBack Example.engine 1%positive
                            Example.playing)))))) /\
  (EngineActivity ∉ [PullBack; SetupPlayer; Fire]) /\
  (@pullBack Example.engine 1%positive
     (snd (@fire Example.engine 1%positive
             (snd (@setupPlayer Example.engine 1%positive tt tt
                     (snd (@pullBack Example.engine 1%positive
                             Example.playing))))))).1 = Return tt.
Proof.
  assert (R : ready 1%positive (Example.plunger Example.manual) 1%positive
                (Example.hitObject Example.manual)
                (Example.mover Example.manual) Example.playing)
    by (repeat split; vm_compute; reflexivity).
  assert (Hi : @history Example.engine 1%positive [PullBack; SetupPlayer; Fire]
                 Example.playing
                 (snd (@fire Example.engine 1%positive
                         (snd (@setupPlayer Example.engine 1%positive tt tt
                                 (snd (@pullBack Example.engine 1%positive
                                         Example.playing))))))).
  { apply (@history_cons Example.engine _ _ _ _ _ _ (@step_pullBack Example.engine 1%positive _)).
    apply (@history_cons Example.engine _ _ _ _ _ _ (@step_setupPlayer Example.engine 1%positive tt tt _)).
    apply (@history_cons Example.engine _ _ _ _ _ _ (@step_fire Example.engine 1%positive _)).
    apply (@history_nil Example.engine). }
  assert (Ne : EngineActivity ∉ [PullBack; SetupPlayer; Fire]).
  { intros In. repeat (apply elem_of_cons in In as [In|In]; [discriminate In|]).
    now apply not_elem_of_nil in In. }
  split; [exact R|]. split; [exact Hi|]. split; [exact Ne|].
  exact (proj1 (proj2 (session_calls_never_raise_again (H:=Example.engine)
                         _ _ _ _ _ _ _ _ tt R Hi Ne))).
Defined.

Lemma getBallCreationPosition_needs_session_witness :
  @new_Plunger Example.engine "Plunger" Example.manual emptyHeap
  = (Return 1%positive, Example.constructed.2) /\
  @history Example.engine 1%positive [] Example.constructed.2
    Example.constructed.2 /\
  (SetupPlayer ∉ ([] : list Event)) /\
  @getBallCreationPosition Example.engine 1%positive tt Example.constructed.2
  = (ThrowTypeError, Example.constructed.2).
Proof.
  assert (E : @new_Plunger Example.engine "Plunger" Example.manual emptyHeap
              = (Return 1%positive, Example.constructed.2)) by reflexivity.
  assert (Hi : @history Example.engine 1%positive [] Example.constructed.2
                 Example.constructed.2) by apply (@history_nil Example.engine).
  assert (Ne : SetupPlayer ∉ ([] : list Event)) by apply not_elem_of_nil.
  split; [exact E|]. split; [exact Hi|]. split; [exact Ne|].
  exact (proj1 (getBallCreationPosition_needs_session (H:=Example.engine)
                  _ _ _ _ _ _ _ tt E Hi Ne)).
Defined.

Lemma plungers_do_not_share_state_witness :
  @new_Plunger Example.engine "Plunger" Example.manual emptyHeap
  = (Return 1%positive, Example.constructed.2) /\
  @new_Plunger Example.engine "AutoPlunger" Example.automatic
    Example.constructed.2
  = (Return 2%positive,
     snd (@new_Plunger Example.engine "AutoPlunger" Example.automatic
            Example.constructed.2)) /\
  @getData Example.engine 1%positive
    (snd (@new_Plunger Example.engine "AutoPlunger" Example.automatic
            Example.constructed.2))
  = (Return Example.manual,
     snd (@new_Plunger Example.engine "AutoPlunger" Example.automatic
            Example.constructed.2)).
Proof.
  assert (E1 : @new_Plunger Example.engine "Plunger" Example.manual emptyHeap
               = (Return 1%positive, Example.constructed.2)) by reflexivity.
  assert (E2 : @new_Plunger Example.engine "AutoPlunger" Example.automatic
                 Example.constructed.2
               = (Return 2%positive,
                  snd (@new_Plunger Example.engine "AutoPlunger"
                         Example.automatic Example.constructed.2)))
    by (vm_compute; reflexivity).
  split; [exact E1|]. split; [exact E2|].
  destruct (plungers_do_not_share_state (H:=Example.engine)
              _ _ _ _ _ _ _ _ _ E1 E2)
    as (st1 & st2 & _ & _ & _ & _ & _ & _ & D1 & _).
  exact D1.
Defined.

Lemma applyState_applies_a_missing_part_witness :
  plungers FlatExample.constructed !! 1%positive
  = Some (@mkPlunger FlatExample.engine Example.manual Example.manual
            1%positive None None None) /\
  states FlatExample.constructed !! 1%positive
  = Some (PlungerState.mk "Plunger" 0) /\
  exists scene',
    (@applyState FlatExample.engine _ _ FlatExample.renderApi 1%positive
       "plunger"%string tt tt FlatExample.group FlatExample.constructed).1
    = Return scene'
    /\ FlatExample.group !! "rod"%string = Some (Some ("rod"%string, 7))
    /\ scene' !! "rod"%string = Some None.
Proof.
  assert (Hp : plungers FlatExample.constructed !! 1%positive
               = Some (@mkPlunger FlatExample.engine Example.manual
                         Example.manual 1%positive None None None))
    by (vm_compute; reflexivity).
  assert (Hs : states FlatExample.constructed
               !! state (@mkPlunger FlatExample.engine Example.manual
                           Example.manual 1%positive None None None)
               = Some (PlungerState.mk "Plunger" 0))
    by (vm_compute; reflexivity).
  split; [exact Hp|]. split; [exact Hs|].
  destruct (applyState_applies_a_missing_part (H:=FlatExample.engine)
              (RenderApiLaws0:=FlatExample.renderApiLaws)
              1%positive "plunger"%string tt tt FlatExample.group _ _ _
              "rod"%string Hp Hs eq_refl eq_refl)
    as (scene' & meshes & A & N & _); try (vm_compute; congruence).
  exists scene'. split; [now rewrite A|].
  split; [vm_compute; reflexivity|exact N].
Defined.
